(** * Amazon order-sync trigger handlers (Frappe client scripts)

    Shallow embedding of the two form handlers of the repository:

    - [amazon_settings.js]  : [frappe.ui.form.on("Amazon Settings", { load_sync })]
    - [unnamed/part_000]    : [frappe.ui.form.on("Amazon API Settings", { load_sync })]

    Both handlers normalise two date fields with the local arrow function
    [formatToISO8601], issue [frappe.call] and report the outcome with
    [frappe.msgprint].  The JavaScript built-ins they rely on ([Date],
    [Date.prototype.toISOString], [String.prototype.split], truthiness)
    are modelled after ECMA-262; the implementation-defined parts of the
    platform (local time zone, the fallback of [Date.parse] on strings
    outside the Date Time String Format, the translation function [__])
    are fields of an environment record. *)

From Stdlib Require Import ZArith List String Ascii Bool Lia.
Import ListNotations.
Local Open Scope string_scope.
Local Open Scope Z_scope.
Set Warnings "-register-all".

(** ** JavaScript values *)

(** A Number is NaN, an infinity, or a finite binary fraction [m * 2^e]. *)
Inductive jsnumber : Type :=
| NaN
| Infinity (negative : bool)
| Finite (m e : Z).

Inductive jsval : Type :=
| JUndefined
| JNull
| JBool (b : bool)
| JNum (n : jsnumber)
| JStr (s : string)
| JArr (items : list jsval)
| JObj (props : list (string * jsval)).

(** ToBoolean (ECMA-262 7.1.2): [undefined], [null], [false], [0], [NaN]
    and the empty string are falsy; every object (arrays included, also the
    empty one) is truthy. *)
Definition truthy (v : jsval) : bool :=
  match v with
  | JUndefined | JNull => false
  | JBool b => b
  | JNum NaN => false
  | JNum (Infinity _) => true
  | JNum (Finite m _) => negb (m =? 0)
  | JStr s => negb (String.eqb s "")
  | JArr _ | JObj _ => true
  end.

(** [Array.isArray]. *)
Definition Array_isArray (v : jsval) : bool :=
  match v with JArr _ => true | _ => false end.

(** [v.length > 0].  The handler evaluates it only behind
    [Array.isArray(v)], so only the array case is ever reached. *)
Definition length_gt_0 (v : jsval) : bool :=
  match v with
  | JArr items => (0 <? Z.of_nat (List.length items))
  | _ => false
  end.

(** A Date or Datetime form field holds a string, or [null] / [undefined]
    while it is unset. *)
Inductive field_value : Type :=
| FUndefined
| FNull
| FStr (s : string).

Definition js_of_field (f : field_value) : jsval :=
  match f with
  | FUndefined => JUndefined
  | FNull => JNull
  | FStr s => JStr s
  end.

(** [frm.doc] restricted to the two fields the handlers read. *)
Record doc : Type := { from_date : field_value; to_date : field_value }.

(** ** Time values (ECMA-262 21.4.1)

    A time value is an integral number of milliseconds since the epoch, or
    NaN, written [None]. *)

Module DateArith.

Definition msPerDay : Z := 86400000.
Definition msPerHour : Z := 3600000.
Definition msPerMinute : Z := 60000.
Definition msPerSecond : Z := 1000.
Definition maxTime : Z := 8640000000000000.

Definition Day (t : Z) : Z := t / msPerDay.
Definition TimeWithinDay (t : Z) : Z := t mod msPerDay.

Definition isLeap (y : Z) : bool :=
  if negb (y mod 4 =? 0) then false
  else if negb (y mod 100 =? 0) then true
  else (y mod 400 =? 0).

Definition DaysInYear (y : Z) : Z := if isLeap y then 366 else 365.

Definition DayFromYear (y : Z) : Z :=
  365 * (y - 1970) + (y - 1969) / 4 - (y - 1901) / 100 + (y - 1601) / 400.

(** The largest [y] with [DayFromYear y <= d]: an estimate from the mean
    length of the Gregorian year, corrected by at most one year. *)
Definition YearFromDay (d : Z) : Z :=
  let y := 1970 + (400 * d) / 146097 in
  if d <? DayFromYear y then y - 1
  else if DayFromYear (y + 1) <=? d then y + 1
  else y.

Definition YearFromTime (t : Z) : Z := YearFromDay (Day t).
Definition InLeapYear (t : Z) : bool := isLeap (YearFromTime t).
Definition DayWithinYear (t : Z) : Z := Day t - DayFromYear (YearFromTime t).

(** First day (within the year) of month [m], 0 = January. *)
Definition monthStart (leap : bool) (m : Z) : Z :=
  let l := if leap then 1 else 0 in
  match m with
  | 0 => 0 | 1 => 31 | 2 => 59 + l | 3 => 90 + l | 4 => 120 + l
  | 5 => 151 + l | 6 => 181 + l | 7 => 212 + l | 8 => 243 + l
  | 9 => 273 + l | 10 => 304 + l | 11 => 334 + l
  | _ => 365 + l
  end.

Definition monthOfYearDay (leap : bool) (d : Z) : Z :=
  if d <? monthStart leap 1 then 0
  else if d <? monthStart leap 2 then 1
  else if d <? monthStart leap 3 then 2
  else if d <? monthStart leap 4 then 3
  else if d <? monthStart leap 5 then 4
  else if d <? monthStart leap 6 then 5
  else if d <? monthStart leap 7 then 6
  else if d <? monthStart leap 8 then 7
  else if d <? monthStart leap 9 then 8
  else if d <? monthStart leap 10 then 9
  else if d <? monthStart leap 11 then 10
  else 11.

Definition MonthFromTime (t : Z) : Z :=
  monthOfYearDay (InLeapYear t) (DayWithinYear t).

Definition DateFromTime (t : Z) : Z :=
  DayWithinYear t - monthStart (InLeapYear t) (MonthFromTime t) + 1.

Definition DaysInMonth (y m : Z) : Z :=
  monthStart (isLeap y) (m + 1) - monthStart (isLeap y) m.

Definition HourFromTime (t : Z) : Z := (t / msPerHour) mod 24.
Definition MinFromTime (t : Z) : Z := (t / msPerMinute) mod 60.
Definition SecFromTime (t : Z) : Z := (t / msPerSecond) mod 60.
Definition msFromTime (t : Z) : Z := t mod msPerSecond.

Definition MakeTime (h m s ms : Z) : Z :=
  h * msPerHour + m * msPerMinute + s * msPerSecond + ms.

(** [MakeDay] for a month already in 0..11 (the only way the parser
    below calls it). *)
Definition MakeDay (y m dt : Z) : Z :=
  DayFromYear y + monthStart (isLeap y) m + dt - 1.

Definition MakeDate (day time : Z) : Z := day * msPerDay + time.

Definition TimeClip (t : Z) : option Z :=
  if Z.abs t <=? maxTime then Some t else None.

End DateArith.

(** ** Strings of decimal digits *)

Module Digits.

Definition digit_char (d : Z) : ascii := ascii_of_nat (Z.to_nat (48 + d)).

Definition digit_val (c : ascii) : option Z :=
  let n := Z.of_nat (nat_of_ascii c) in
  if (48 <=? n) && (n <=? 57) then Some (n - 48) else None.

(** The [n] low decimal digits of [v], most significant first. *)
Fixpoint pad (n : nat) (v : Z) : string :=
  match n with
  | O => ""
  | S k => String (digit_char ((v / 10 ^ Z.of_nat k) mod 10)) (pad k v)
  end.

(** Reads exactly [n] decimal digits. *)
Fixpoint read_digits (n : nat) (acc : Z) (s : string) : option (Z * string) :=
  match n with
  | O => Some (acc, s)
  | S k =>
      match s with
      | String c r =>
          match digit_val c with
          | Some d => read_digits k (10 * acc + d) r
          | None => None
          end
      | EmptyString => None
      end
  end.

(** Consumes the character [c] if the string starts with it. *)
Definition accept (c : ascii) (s : string) : option string :=
  match s with
  | String c' r => if Ascii.eqb c' c then Some r else None
  | EmptyString => None
  end.

End Digits.

(** ** Date Time String Format (ECMA-262 21.4.1.32) *)

Module IsoFormat.
Import DateArith Digits.

(** The format elements read from a string.  [iso_offset] is the UTC
    offset in minutes when the string carries one ([Z] is 0). *)
Record iso_fields : Type := {
  iso_year : Z;
  iso_month : Z;       (* 1..12 *)
  iso_day : Z;         (* 1..31 *)
  iso_has_time : bool;
  iso_hour : Z;
  iso_minute : Z;
  iso_second : Z;
  iso_ms : Z;
  iso_offset : option Z
}.

Definition bind_opt {A B} (o : option A) (f : A -> option B) : option B :=
  match o with Some a => f a | None => None end.

Notation "'let?' x := e 'in' k" := (bind_opt e (fun x => k))
  (at level 10, x pattern, e at level 100, k at level 200).

Definition guard (b : bool) : option unit := if b then Some tt else None.

(** [YYYY], or a sign and six digits; [-000000] is not a year. *)
Definition read_year (s : string) : option (Z * string) :=
  match accept "+" s with
  | Some r => read_digits 6 0 r
  | None =>
      match accept "-" s with
      | Some r =>
          let? (y, r') := read_digits 6 0 r in
          let? _ := guard (negb (y =? 0)) in
          Some (- y, r')
      | None => read_digits 4 0 s
      end
  end.

(** [-MM] and [-DD], each optional; a missing element is 1. *)
Definition read_month_day (s : string) : option (Z * Z * string) :=
  match accept "-" s with
  | None => Some (1, 1, s)
  | Some r =>
      let? (m, r1) := read_digits 2 0 r in
      match accept "-" r1 with
      | None => Some (m, 1, r1)
      | Some r2 =>
          let? (d, r3) := read_digits 2 0 r2 in
          Some (m, d, r3)
      end
  end.

(** [HH:mm], then optional [:ss] and, after it, optional [.sss]. *)
Definition read_time (s : string) : option (Z * Z * Z * Z * string) :=
  let? (h, r1) := read_digits 2 0 s in
  let? r2 := accept ":" r1 in
  let? (mi, r3) := read_digits 2 0 r2 in
  match accept ":" r3 with
  | None => Some (h, mi, 0, 0, r3)
  | Some r4 =>
      let? (sec, r5) := read_digits 2 0 r4 in
      match accept "." r5 with
      | None => Some (h, mi, sec, 0, r5)
      | Some r6 =>
          let? (ms, r7) := read_digits 3 0 r6 in
          Some (h, mi, sec, ms, r7)
      end
  end.

(** [Z], [+HH:mm], [-HH:mm] or nothing; the string must end here. *)
Definition read_offset (s : string) : option (option Z) :=
  match s with
  | EmptyString => Some None
  | String c r =>
      if Ascii.eqb c "Z" then
        match r with EmptyString => Some (Some 0) | _ => None end
      else
        let? sign :=
          (if Ascii.eqb c "+" then Some 1
           else if Ascii.eqb c "-" then Some (-1) else None) in
        let? (h, r1) := read_digits 2 0 r in
        let? r2 := accept ":" r1 in
        let? (mi, r3) := read_digits 2 0 r2 in
        let? _ := guard ((h <=? 23) && (mi <=? 59)) in
        match r3 with
        | EmptyString => Some (Some (sign * (h * 60 + mi)))
        | _ => None
        end
  end.

(** Bounds of the format elements; hour 24 only as [24:00:00.000]. *)
Definition fields_in_bounds (f : iso_fields) : bool :=
  (1 <=? iso_month f) && (iso_month f <=? 12)
  && (1 <=? iso_day f)
  && (iso_day f <=? DaysInMonth (iso_year f) (iso_month f - 1))
  && (iso_hour f <=? 24) && (iso_minute f <=? 59) && (iso_second f <=? 59)
  && (negb (iso_hour f =? 24)
      || ((iso_minute f =? 0) && (iso_second f =? 0) && (iso_ms f =? 0))).

(** A string of the format, with its elements; [None] when the string is
    not an instance of the format. *)
Definition read_iso (s : string) : option iso_fields :=
  let? (y, r1) := read_year s in
  let? (m, d, r2) := read_month_day r1 in
  let? f :=
    match r2 with
    | EmptyString =>
        Some {| iso_year := y; iso_month := m; iso_day := d;
                iso_has_time := false; iso_hour := 0; iso_minute := 0;
                iso_second := 0; iso_ms := 0; iso_offset := None |}
    | String c r3 =>
        let? _ := guard (Ascii.eqb c "T") in
        let? (h, mi, sec, ms, r4) := read_time r3 in
        let? off := read_offset r4 in
        Some {| iso_year := y; iso_month := m; iso_day := d;
                iso_has_time := true; iso_hour := h; iso_minute := mi;
                iso_second := sec; iso_ms := ms; iso_offset := off |}
    end in
  let? _ := guard (fields_in_bounds f) in
  Some f.

(** The (unclipped) UTC time the elements denote.  Without an offset, a
    date-only form is UTC and a date-time form is local time; [tza] is
    LocalTZA(t, false), the offset of local time [t] in milliseconds. *)
Definition time_of_fields (tza : Z -> Z) (f : iso_fields) : Z :=
  let t := MakeDate (MakeDay (iso_year f) (iso_month f - 1) (iso_day f))
             (MakeTime (iso_hour f) (iso_minute f) (iso_second f) (iso_ms f)) in
  match iso_offset f with
  | Some off => t - off * msPerMinute
  | None => if iso_has_time f then t - tza t else t
  end.

(** The year of [toISOString]: four digits from 0 to 9999, otherwise a
    sign and six digits. *)
Definition year_string (y : Z) : string :=
  if (0 <=? y) && (y <=? 9999) then pad 4 y
  else String (if 0 <=? y then "+"%char else "-"%char) (pad 6 (Z.abs y)).

Definition date_time_string (t : Z) : string :=
  year_string (YearFromTime t) ++ "-" ++ pad 2 (MonthFromTime t + 1) ++ "-"
  ++ pad 2 (DateFromTime t) ++ "T" ++ pad 2 (HourFromTime t) ++ ":"
  ++ pad 2 (MinFromTime t) ++ ":" ++ pad 2 (SecFromTime t).

(** The full UTC rendering [YYYY-MM-DDTHH:mm:ss.sssZ] of a time value. *)
Definition iso_string (t : Z) : string :=
  date_time_string t ++ "." ++ pad 3 (msFromTime t) ++ "Z".

End IsoFormat.

(** ** The platform *)

(** What ECMA-262 and the framework leave to the implementation. *)
Record platform : Type := {
  (** LocalTZA(t, false): offset of the local time [t], in milliseconds. *)
  LocalTZA : Z -> Z;
  (** What [Date.parse] makes of a string outside the Date Time String
      Format: a time, or [None] for NaN. *)
  fallback_parse : string -> option Z;
  (** The translation function [__]. *)
  translate : string -> string
}.

Module JsDate.
Import DateArith IsoFormat.

(** [Date.parse] (21.4.3.2): the Date Time String Format first, the
    implementation's own heuristics for anything else. *)
Definition Date_parse (p : platform) (s : string) : option Z :=
  match read_iso s with
  | Some f => TimeClip (time_of_fields (LocalTZA p) f)
  | None => bind_opt (fallback_parse p s) TimeClip
  end.

Inductive exn : Type :=
| RangeError (msg : string).

Inductive completion (A : Type) : Type :=
| Normal (a : A)
| Throw (e : exn).
Arguments Normal {A} a.
Arguments Throw {A} e.

(** [Date.prototype.toISOString] (21.4.4.36): a RangeError on an invalid
    date. *)
Definition toISOString (tv : option Z) : completion string :=
  match tv with
  | Some t => Normal (iso_string t)
  | None => Throw (RangeError "Invalid time value")
  end.

End JsDate.

Module JsString.

(** [s.split(c)] for a one-character separator: never empty. *)
Fixpoint split (c : ascii) (s : string) : list string :=
  match s with
  | EmptyString => [""]
  | String a r =>
      if Ascii.eqb a c then "" :: split c r
      else match split c r with
           | x :: xs => String a x :: xs
           | [] => [String a ""]
           end
  end.

(** [arr[0] + suffix]: a missing element is [undefined], which
    concatenates as the text "undefined". *)
Definition first_plus (arr : list string) (suffix : string) : string :=
  match nth_error arr 0 with
  | Some x => x ++ suffix
  | None => "undefined" ++ suffix
  end.

(** A template literal hole filled with a string or [null]. *)
Definition interpolate (v : option string) : string :=
  match v with Some s => s | None => "null" end.

End JsString.

(** ** Effects *)

Export JsDate.

Record notice : Type := { title : string; message : string; indicator : string }.

(** The object a resolved [frappe.call] hands to [callback]; a missing
    [message] property reads as [undefined]. *)
Record response : Type := { res_message : jsval }.

(** The options object of [frappe.call].  [extra] holds every property
    other than the four named ones ([timeout], [freeze], [async], ...). *)
Record call_options (E : Type) : Type := {
  method : string;
  args : list (string * jsval);
  callback : option (response -> list E * completion unit);
  error : option (jsval -> list E * completion unit);
  extra : list (string * jsval)
}.
Arguments method {E} _.
Arguments args {E} _.
Arguments callback {E} _.
Arguments error {E} _.
Arguments extra {E} _.

Inductive event : Type :=
| NewDate (v : jsval)             (* [new Date(v)] *)
| ConsoleLog (line : list jsval)
| ConsoleError (line : list jsval)
| Freeze (msg : string)           (* [frappe.dom.freeze(msg)] *)
| Unfreeze                        (* [frappe.dom.unfreeze()] *)
| Msgprint (n : notice)           (* [frappe.msgprint({...})] *)
| FrappeCall (o : call_options event).

(** A computation: the events it performs, in order, and how it ends. *)
Definition M (A : Type) : Type := list event * completion A.

Definition ret {A} (a : A) : M A := ([], Normal a).

Definition bind {A B} (m : M A) (f : A -> M B) : M B :=
  match m with
  | (tr, Normal a) => let (tr', c) := f a in ((tr ++ tr')%list, c)
  | (tr, Throw e) => (tr, Throw e)
  end.

Definition emit (e : event) : M unit := ([e], Normal tt).

Definition lift {A} (c : completion A) : M A := ([], c).

Notation "x <- m ;; k" := (bind m (fun x => k))
  (at level 61, m at next level, right associativity).
Notation "m ;; k" := (bind m (fun _ => k))
  (at level 61, right associativity).

Definition trace {A} (m : M A) : list event := fst m.
Definition result {A} (m : M A) : completion A := snd m.

(** [new Date(v)] (21.4.2.1) on a field value: a string is parsed,
    anything else goes through ToNumber ([null] is 0, [undefined] NaN). *)
Definition new_Date (p : platform) (v : field_value) : M (option Z) :=
  emit (NewDate (js_of_field v));;
  ret match v with
      | FStr s => Date_parse p s
      | FNull => DateArith.TimeClip 0
      | FUndefined => None
      end.

(** The transport settles a call once: [callback] on a response, [error]
    on a failure; a handler that is not given does nothing here. *)
Inductive rpc_outcome : Type :=
| Resolved (res : response)
| Rejected (err : jsval).

Definition settle (o : call_options event) (out : rpc_outcome) : M unit :=
  match out with
  | Resolved res =>
      match callback o with Some k => k res | None => ret tt end
  | Rejected err =>
      match error o with Some k => k err | None => ret tt end
  end.

(** The calls a trace issues, in order. *)
Fixpoint issued (tr : list event) : list (call_options event) :=
  match tr with
  | [] => []
  | FrappeCall o :: r => o :: issued r
  | _ :: r => issued r
  end.

(** One invocation of a handler and, afterwards, the settling of every
    call it issued with the outcome [out]. *)
Record run_result : Type := {
  events : list event;                      (* handler, then callbacks *)
  handler_completion : completion unit;
  callback_completions : list (completion unit)
}.

Definition run (h : M unit) (out : rpc_outcome) : run_result :=
  let settled := map (fun o => settle o out) (issued (trace h)) in
  {| events := (trace h ++ List.concat (map trace settled))%list;
     handler_completion := result h;
     callback_completions := map result settled |}.

(** ** amazon_settings.js: the "Amazon Settings" form *)

Module AmazonSettings.
Import JsString.

Definition formatToISO8601 (p : platform) (dateString : field_value)
  : M (option string) :=
  if negb (truthy (js_of_field dateString)) then ret None
  else
    date <- new_Date p dateString ;;
    iso <- lift (toISOString date) ;;
    ret (Some (first_plus (split "." iso) "Z")).

Definition js_of_nullable (v : option string) : jsval :=
  match v with Some s => JStr s | None => JNull end.

(** The three object literals passed to [frappe.msgprint]. *)
Definition success_notice (p : platform) : notice :=
  {| title := translate p "Success";
     message := translate p "Amazon orders synced successfully.";
     indicator := "green" |}.

Definition information_notice (p : platform) : notice :=
  {| title := translate p "Information";
     message := translate p "No new orders were found to sync.";
     indicator := "yellow" |}.

Definition error_notice (p : platform) : notice :=
  {| title := translate p "Error";
     message := translate p
       "Failed to sync orders. Please try again or contact support if the issue persists.";
     indicator := "red" |}.

Definition on_callback (p : platform) (res : response) : M unit :=
  emit Unfreeze ;;
  if truthy (res_message res) && Array_isArray (res_message res)
     && length_gt_0 (res_message res)
  then
    emit (Msgprint (success_notice p)) ;;
    emit (ConsoleLog [JStr "Response:"; res_message res])
  else
    emit (Msgprint (information_notice p)).

Definition on_error (p : platform) (err : jsval) : M unit :=
  emit Unfreeze ;;
  emit (ConsoleError [JStr "Error syncing orders:"; err]) ;;
  emit (Msgprint (error_notice p)).

(** The object literal passed to [frappe.call]. *)
Definition call_object (p : platform) (created_after created_before : option string)
  : call_options event :=
  {| method := "amazon_integration.amazon_integration.py.amazon.sync_amazon_vendor_orders";
     args := [("created_after", js_of_nullable created_after);
              ("created_before", js_of_nullable created_before)];
     callback := Some (on_callback p);
     error := Some (on_error p);
     extra := [] |}.

Definition load_sync (p : platform) (frm : doc) : M unit :=
  created_after <- formatToISO8601 p (from_date frm) ;;
  created_before <- formatToISO8601 p (to_date frm) ;;
  emit (ConsoleLog [JStr ("From Date (ISO): " ++ interpolate created_after)]) ;;
  emit (ConsoleLog [JStr ("To Date (ISO): " ++ interpolate created_before)]) ;;
  emit (Freeze "Fetching orders from Amazon...") ;;
  emit (FrappeCall (call_object p created_after created_before)).

End AmazonSettings.

(** ** unnamed/part_000: the "Amazon API Settings" form *)

Module AmazonApiSettings.
Import JsString.

Definition formatToISO8601 (p : platform) (dateString : field_value)
  : M (option string) :=
  if negb (truthy (js_of_field dateString)) then ret None
  else
    date <- new_Date p dateString ;;
    iso <- lift (toISOString date) ;;
    ret (Some (first_plus (split "." iso) "Z")).

Definition js_of_nullable (v : option string) : jsval :=
  match v with Some s => JStr s | None => JNull end.

(** The two object literals passed to [frappe.msgprint]. *)
Definition success_notice (p : platform) : notice :=
  {| title := translate p "Success";
     message := translate p "Orders synced successfully.";
     indicator := "green" |}.

Definition error_notice (p : platform) : notice :=
  {| title := translate p "Error";
     message := translate p "No orders were synced.";
     indicator := "red" |}.

Definition on_callback (p : platform) (res : response) : M unit :=
  if truthy (res_message res)
  then
    emit (Msgprint (success_notice p)) ;;
    emit (ConsoleLog [JStr "Response:"; res_message res])
  else
    emit (Msgprint (error_notice p)).

(** The object literal passed to [frappe.call]: no [error] property. *)
Definition call_object (p : platform) (created_after created_before : option string)
  : call_options event :=
  {| method := "amazon_integration.amazon_integration.py.amazon.sync_amazon_vendor_orders";
     args := [("created_after", js_of_nullable created_after);
              ("created_before", js_of_nullable created_before)];
     callback := Some (on_callback p);
     error := None;
     extra := [] |}.

Definition load_sync (p : platform) (frm : doc) : M unit :=
  created_after <- formatToISO8601 p (from_date frm) ;;
  created_before <- formatToISO8601 p (to_date frm) ;;
  emit (ConsoleLog [JStr ("From Date (ISO): " ++ interpolate created_after)]) ;;
  emit (ConsoleLog [JStr ("From Date (ISO): " ++ interpolate created_before)]) ;;
  emit (FrappeCall (call_object p created_after created_before)).

End AmazonApiSettings.

(** ** A concrete platform

    An engine in a fixed-offset time zone whose fallback accepts the
    [YYYY-MM-DD HH:mm:ss] form of Frappe Datetime fields (a space where the
    format has [T]) and reads it as local time, as the common engines do;
    [__] is the identity (no translation loaded). *)

Module Engine.
Import DateArith IsoFormat.

Fixpoint space_to_T (s : string) : string :=
  match s with
  | EmptyString => EmptyString
  | String c r => if Ascii.eqb c " " then String "T" r else String c (space_to_T r)
  end.

Definition legacy_parse (tza : Z -> Z) (s : string) : option Z :=
  match read_iso (space_to_T s) with
  | Some f => Some (time_of_fields tza f)
  | None => None
  end.

Definition fixed_offset (minutes : Z) : platform :=
  {| LocalTZA := fun _ => minutes * msPerMinute;
     fallback_parse := legacy_parse (fun _ => minutes * msPerMinute);
     translate := fun s => s |}.

Definition utc : platform := fixed_offset 0.
Definition kolkata : platform := fixed_offset 330.

End Engine.

(** ** Notices and traces *)

Inductive variant : Type := Success | Information | Failure.

(** The variant of a notice is its severity colour. *)
Definition variant_of (n : notice) : option variant :=
  if String.eqb (indicator n) "green" then Some Success
  else if String.eqb (indicator n) "yellow" then Some Information
  else if String.eqb (indicator n) "red" then Some Failure
  else None.

Fixpoint notices (tr : list event) : list notice :=
  match tr with
  | [] => []
  | Msgprint n :: r => n :: notices r
  | _ :: r => notices r
  end.

Definition is_freeze (e : event) : bool :=
  match e with Freeze _ => true | _ => false end.
Definition is_unfreeze (e : event) : bool :=
  match e with Unfreeze => true | _ => false end.
Definition is_call (e : event) : bool :=
  match e with FrappeCall _ => true | _ => false end.
Definition is_notice (e : event) : bool :=
  match e with Msgprint _ => true | _ => false end.
Definition is_new_date (e : event) : bool :=
  match e with NewDate _ => true | _ => false end.
Definition is_console_error (e : event) : bool :=
  match e with ConsoleError _ => true | _ => false end.

Definition count (f : event -> bool) (tr : list event) : nat :=
  List.length (filter f tr).

(** Every [g]-event of the trace comes after some [f]-event. *)
Fixpoint precedes (f g : event -> bool) (tr : list event) : bool :=
  match tr with
  | [] => true
  | e :: r => if f e then true else if g e then false else precedes f g r
  end.

(** Property lookup in an object literal. *)
Fixpoint lookup (k : string) (o : list (string * jsval)) : option jsval :=
  match o with
  | [] => None
  | (k', v) :: r => if String.eqb k' k then Some v else lookup k r
  end.

(** A field that [formatToISO8601] can normalise: falsy, or a string
    [Date.parse] gives a time for. *)
Definition normalizes (p : platform) (f : field_value) : bool :=
  match f with
  | FStr s =>
      if String.eqb s "" then true
      else match Date_parse p s with Some _ => true | None => false end
  | _ => true
  end.

(** The [new Date] a normalisation performs: none on a falsy field. *)
Definition date_events (f : field_value) : list event :=
  if truthy (js_of_field f) then [NewDate (js_of_field f)] else [].

(** The payloads the response contract names: no payload or an empty
    sequence, and a sequence of at least one record. *)
Definition empty_payload (v : jsval) : bool :=
  match v with
  | JUndefined | JNull | JArr [] => true
  | _ => false
  end.

Definition nonempty_sequence (v : jsval) : bool :=
  match v with
  | JArr (_ :: _) => true
  | _ => false
  end.

Definition field_of_nullable (v : option string) : field_value :=
  match v with Some s => FStr s | None => FNull end.

(** What a normalisable field normalises to ([None] is [null]). *)
Definition normalized (p : platform) (f : field_value) : option string :=
  match f with
  | FStr s =>
      if String.eqb s "" then None
      else match Date_parse p s with
           | Some tv => Some (IsoFormat.date_time_string tv ++ "Z")
           | None => None
           end
  | _ => None
  end.

Definition sync_method : string :=
  "amazon_integration.amazon_integration.py.amazon.sync_amazon_vendor_orders".

(** ** The pattern [YYYY-MM-DDTHH:mm:ssZ] *)

Inductive pat : Type := D | C (c : ascii).

Definition is_digit (c : ascii) : bool :=
  match Digits.digit_val c with Some _ => true | None => false end.

Fixpoint matches (ps : list pat) (s : string) : bool :=
  match ps, s with
  | [], EmptyString => true
  | D :: ps', String c r => is_digit c && matches ps' r
  | C c' :: ps', String c r => Ascii.eqb c c' && matches ps' r
  | _, _ => false
  end.

Definition iso_seconds_pattern : list pat :=
  [D; D; D; D; C "-"; D; D; C "-"; D; D; C "T";
   D; D; C ":"; D; D; C ":"; D; D; C "Z"]%char.

Fixpoint no_dot (s : string) : bool :=
  match s with
  | EmptyString => true
  | String c r => negb (Ascii.eqb c ".") && no_dot r
  end.

(** Two form states used in the examples below. *)
Definition unset_doc : doc := {| from_date := FNull; to_date := FUndefined |}.
Definition bad_doc : doc := {| from_date := FStr "not a date"; to_date := FNull |}.

(** The form state of the scenario: a Datetime in [from_date], no
    [to_date]; and the time its text denotes when read as UTC. *)
Definition scenario_doc : doc :=
  {| from_date := FStr "2024-01-15 10:30:00"; to_date := FNull |}.

Definition scenario_time : Z :=
  DateArith.MakeDate (DateArith.MakeDay 2024 0 15) (DateArith.MakeTime 10 30 0 0).

(** ** Field values as Frappe stores them

    A Date field holds [YYYY-MM-DD]; the wire form the handlers send is
    [YYYY-MM-DDTHH:mm:ssZ]. *)

Definition date_text (y m d : Z) : string :=
  Digits.pad 4 y ++ "-" ++ Digits.pad 2 m ++ "-" ++ Digits.pad 2 d.

Definition wire_text (y m d h mi sec : Z) : string :=
  date_text y m d ++ "T" ++ Digits.pad 2 h ++ ":" ++ Digits.pad 2 mi ++ ":"
  ++ Digits.pad 2 sec ++ "Z".

(** A calendar date with a four-digit year, and a time of day. *)
Definition valid_date (y m d : Z) : bool :=
  (0 <=? y) && (y <=? 9999) && (1 <=? m) && (m <=? 12)
  && (1 <=? d) && (d <=? DateArith.DaysInMonth y (m - 1)).

Definition valid_time (h mi sec : Z) : bool :=
  (0 <=? h) && (h <=? 23) && (0 <=? mi) && (mi <=? 59)
  && (0 <=? sec) && (sec <=? 59).

Definition is_console_log (e : event) : bool :=
  match e with ConsoleLog _ => true | _ => false end.

(** The expanded form [+YYYYYY-MM-DDTHH:mm:ssZ], with its sign. *)
Definition expanded_seconds_pattern (sign : ascii) : list pat :=
  [C sign; D; D; D; D; D; D; C "-"; D; D; C "-"; D; D; C "T";
   D; D; C ":"; D; D; C ":"; D; D; C "Z"]%char.

(** * Proofs *)

(** ** Digit strings *)

Section DigitStrings.
Import Digits.

Lemma digit_val_char d : 0 <= d <= 9 -> digit_val (digit_char d) = Some d.
Proof.
  intros H.
  assert (E : d = 0 \/ d = 1 \/ d = 2 \/ d = 3 \/ d = 4 \/ d = 5 \/ d = 6
              \/ d = 7 \/ d = 8 \/ d = 9) by lia.
  repeat (destruct E as [-> | E]; [reflexivity |]). subst d; reflexivity.
Qed.

Lemma digit_val_eqb c c' d :
  digit_val c = Some d -> digit_val c' = None -> Ascii.eqb c c' = false.
Proof.
  intros H1 H2. destruct (Ascii.eqb_spec c c') as [-> | ]; congruence.
Qed.

Lemma mod10_range v : 0 <= v mod 10 <= 9.
Proof. pose proof (Z.mod_pos_bound v 10); lia. Qed.

Lemma read_digits_pad n : forall v acc r,
  0 <= v ->
  read_digits n acc (pad n v ++ r) = Some (acc * 10 ^ Z.of_nat n + v mod 10 ^ Z.of_nat n, r).
Proof.
  induction n as [| k IH]; intros v acc r Hv.
  - cbn. rewrite Z.mod_1_r. f_equal. f_equal. lia.
  - cbn [pad read_digits append].
    rewrite digit_val_char by apply mod10_range.
    rewrite IH by assumption. f_equal. f_equal.
    rewrite Nat2Z.inj_succ, Z.pow_succ_r by lia.
    assert (Hp : 0 < 10 ^ Z.of_nat k) by (apply Z.pow_pos_nonneg; lia).
    rewrite (Z.mul_comm 10 (10 ^ Z.of_nat k)).
    rewrite Z.rem_mul_r by lia. lia.
Qed.

Lemma read_digits_pad_small n v r :
  0 <= v < 10 ^ Z.of_nat n ->
  read_digits n 0 (pad n v ++ r) = Some (v, r).
Proof.
  intros H. rewrite read_digits_pad by lia. rewrite Z.mod_small by lia. reflexivity.
Qed.

Lemma accept_pad c n v r :
  digit_val c = None -> accept c (pad (S n) v ++ r) = None.
Proof.
  intros H. cbn [pad append accept].
  rewrite (digit_val_eqb _ c _ (digit_val_char _ (mod10_range _)) H). reflexivity.
Qed.

Lemma no_dot_app a b : no_dot (a ++ b) = no_dot a && no_dot b.
Proof.
  induction a as [| c a IH]; cbn; [reflexivity |].
  rewrite IH. apply andb_assoc.
Qed.

Lemma no_dot_pad n v : no_dot (pad n v) = true.
Proof.
  induction n as [| k IH]; cbn [pad no_dot]; [reflexivity |].
  rewrite IH, andb_true_r.
  rewrite (digit_val_eqb _ "."%char _ (digit_val_char _ (mod10_range _))); reflexivity.
Qed.

Lemma matches_pad n : forall v ps r,
  matches (repeat D n ++ ps) (pad n v ++ r) = matches ps r.
Proof.
  induction n as [| k IH]; intros v ps r; [reflexivity |].
  cbn [repeat app pad append matches]. unfold is_digit.
  rewrite digit_val_char by apply mod10_range. cbn [andb]. apply IH.
Qed.

End DigitStrings.

(** ** The calendar of time values *)

Section Calendar.
Import DateArith.

Ltac div_lia := Z.to_euclidean_division_equations; lia.

Lemma DayFromYear_step y :
  DayFromYear (y + 1) = DayFromYear y + DaysInYear y.
Proof.
  unfold DayFromYear, DaysInYear, isLeap.
  destruct (Z.eqb_spec (y mod 4) 0), (Z.eqb_spec (y mod 100) 0),
    (Z.eqb_spec (y mod 400) 0); cbn [negb]; div_lia.
Qed.

Lemma YearFromDay_spec d :
  DayFromYear (YearFromDay d) <= d < DayFromYear (YearFromDay d + 1).
Proof.
  unfold YearFromDay.
  set (y := 1970 + 400 * d / 146097).
  destruct (Z.ltb_spec d (DayFromYear y)).
  - replace (y - 1 + 1) with y by lia. split; [| lia].
    unfold DayFromYear in *. subst y. div_lia.
  - destruct (Z.leb_spec (DayFromYear (y + 1)) d).
    + split; [lia |]. unfold DayFromYear in *. subst y. div_lia.
    + lia.
Qed.

Lemma DayWithinYear_range t :
  0 <= DayWithinYear t < DaysInYear (YearFromTime t).
Proof.
  unfold DayWithinYear, YearFromTime.
  pose proof (YearFromDay_spec (Day t)) as H.
  rewrite DayFromYear_step in H. lia.
Qed.

Lemma monthOfYearDay_range (leap : bool) d :
  0 <= d < (if leap then 366 else 365) ->
  let m := monthOfYearDay leap d in
  0 <= m <= 11 /\ monthStart leap m <= d < monthStart leap (m + 1).
Proof.
  intros H. unfold monthOfYearDay.
  repeat match goal with
         | |- context [?a <? ?b] => destruct (Z.ltb_spec a b)
         end; destruct leap; cbn in *; lia.
Qed.

Lemma MonthFromTime_range t : 0 <= MonthFromTime t <= 11.
Proof.
  pose proof (DayWithinYear_range t) as H. unfold DaysInYear in H.
  apply (monthOfYearDay_range (InLeapYear t)), H.
Qed.

Lemma DateFromTime_range t :
  1 <= DateFromTime t <= DaysInMonth (YearFromTime t) (MonthFromTime t).
Proof.
  pose proof (DayWithinYear_range t) as H. unfold DaysInYear in H.
  destruct (monthOfYearDay_range (InLeapYear t) _ H) as [_ Hm].
  unfold DateFromTime, DaysInMonth, MonthFromTime, InLeapYear in *. lia.
Qed.

Lemma DaysInMonth_le_31 y m : 0 <= m <= 11 -> DaysInMonth y m <= 31.
Proof.
  intros H. unfold DaysInMonth.
  assert (E : m = 0 \/ m = 1 \/ m = 2 \/ m = 3 \/ m = 4 \/ m = 5 \/ m = 6
              \/ m = 7 \/ m = 8 \/ m = 9 \/ m = 10 \/ m = 11) by lia.
  destruct (isLeap y);
    repeat (destruct E as [-> | E]; [cbn; lia |]); subst m; cbn; lia.
Qed.

Lemma MakeDay_fields t :
  MakeDay (YearFromTime t) (MonthFromTime t) (DateFromTime t) = Day t.
Proof.
  unfold MakeDay, DateFromTime, DayWithinYear, InLeapYear. lia.
Qed.

Lemma time_fields_range t :
  0 <= HourFromTime t <= 23 /\ 0 <= MinFromTime t <= 59
  /\ 0 <= SecFromTime t <= 59 /\ 0 <= msFromTime t <= 999.
Proof.
  unfold HourFromTime, MinFromTime, SecFromTime, msFromTime,
    msPerHour, msPerMinute, msPerSecond. div_lia.
Qed.

Lemma MakeDate_fields t :
  MakeDate (Day t)
    (MakeTime (HourFromTime t) (MinFromTime t) (SecFromTime t) 0)
  = t - msFromTime t.
Proof.
  unfold MakeDate, MakeTime, Day, HourFromTime, MinFromTime, SecFromTime,
    msFromTime, msPerDay, msPerHour, msPerMinute, msPerSecond. div_lia.
Qed.

Lemma DayFromYear_mono y y' : y <= y' -> DayFromYear y <= DayFromYear y'.
Proof. unfold DayFromYear. intros H. div_lia. Qed.

Lemma YearFromTime_range t :
  Z.abs t <= maxTime -> -271821 <= YearFromTime t <= 275760.
Proof.
  intros H. unfold YearFromTime.
  pose proof (YearFromDay_spec (Day t)) as [H1 H2].
  assert (Hd : -100000000 <= Day t <= 100000000)
    by (unfold Day, msPerDay, maxTime in *; div_lia).
  split.
  - destruct (Z_lt_le_dec (YearFromDay (Day t)) (-271821)) as [L |]; [| lia].
    pose proof (DayFromYear_mono (YearFromDay (Day t) + 1) (-271821) ltac:(lia)) as M.
    change (DayFromYear (-271821)) with (-100000109) in M. lia.
  - destruct (Z_lt_le_dec 275760 (YearFromDay (Day t))) as [L |]; [| lia].
    pose proof (DayFromYear_mono 275761 (YearFromDay (Day t)) ltac:(lia)) as M.
    change (DayFromYear 275761) with 100000110 in M. lia.
Qed.

Lemma fields_of_whole_second t :
  YearFromTime (t - msFromTime t) = YearFromTime t
  /\ MonthFromTime (t - msFromTime t) = MonthFromTime t
  /\ DateFromTime (t - msFromTime t) = DateFromTime t
  /\ HourFromTime (t - msFromTime t) = HourFromTime t
  /\ MinFromTime (t - msFromTime t) = MinFromTime t
  /\ SecFromTime (t - msFromTime t) = SecFromTime t
  /\ msFromTime (t - msFromTime t) = 0.
Proof.
  assert (HD : Day (t - msFromTime t) = Day t)
    by (unfold Day, msFromTime, msPerDay, msPerSecond; div_lia).
  unfold MonthFromTime, DateFromTime, MonthFromTime, InLeapYear, DayWithinYear,
    YearFromTime. rewrite HD.
  repeat split;
    unfold HourFromTime, MinFromTime, SecFromTime, msFromTime,
      msPerHour, msPerMinute, msPerSecond; div_lia.
Qed.

End Calendar.

(** ** Reading back what [toISOString] prints *)

Section IsoRoundTrip.
Import DateArith Digits IsoFormat.

Lemma no_dot_year y : no_dot (year_string y) = true.
Proof.
  unfold year_string.
  destruct ((0 <=? y) && (y <=? 9999)); [apply no_dot_pad |].
  cbn [no_dot]. rewrite no_dot_pad. destruct (0 <=? y); reflexivity.
Qed.

Lemma no_dot_date_time t : no_dot (date_time_string t) = true.
Proof.
  unfold date_time_string.
  repeat (rewrite no_dot_app; cbn [no_dot andb]);
    rewrite ?no_dot_pad, ?no_dot_year; reflexivity.
Qed.

Lemma split_before_dot x : forall y,
  no_dot x = true ->
  nth_error (JsString.split "." (x ++ String "." y)) 0 = Some x.
Proof.
  induction x as [| c x IH]; intros y H.
  - reflexivity.
  - cbn [no_dot] in H. apply andb_true_iff in H as [Hc Hx].
    cbn [append JsString.split].
    apply negb_true_iff in Hc. rewrite Hc.
    specialize (IH y Hx).
    destruct (JsString.split "." (x ++ String "." y)) as [| h tl];
      cbn in IH |- *; congruence.
Qed.

Lemma first_of_iso_string t :
  JsString.first_plus (JsString.split "." (iso_string t)) "Z"
  = date_time_string t ++ "Z".
Proof.
  unfold JsString.first_plus, iso_string.
  change ("." ++ pad 3 (msFromTime t) ++ "Z")
    with (String "." (pad 3 (msFromTime t) ++ "Z")).
  rewrite split_before_dot by apply no_dot_date_time. reflexivity.
Qed.


Lemma app_assoc_string (a b c : string) : (a ++ b) ++ c = a ++ (b ++ c).
Proof. induction a as [| x a IH]; cbn; [reflexivity | now rewrite IH]. Qed.

Lemma read_year_string y r :
  -999999 <= y <= 999999 ->
  read_year (year_string y ++ r) = Some (y, r).
Proof.
  intros Hy. unfold year_string, read_year.
  destruct (Z.leb_spec 0 y) as [H0 | H0]; cbn [andb].
  - destruct (Z.leb_spec y 9999) as [H1 | H1].
    + rewrite !accept_pad by reflexivity.
      apply read_digits_pad_small. cbn. lia.
    + cbn [append accept]. cbn [Ascii.eqb Bool.eqb].
      rewrite read_digits_pad_small by (cbn; lia).
      rewrite Z.abs_eq by lia. reflexivity.
  - cbn [append accept]. cbn [Ascii.eqb Bool.eqb].
    rewrite read_digits_pad_small by (cbn; lia).
    cbn [bind_opt]. destruct (Z.eqb_spec (Z.abs y) 0); [lia |].
    cbn. f_equal. f_equal. lia.
Qed.

Lemma read_iso_date_time t :
  Z.abs t <= maxTime ->
  read_iso (date_time_string t ++ "Z")
  = Some {| iso_year := YearFromTime t; iso_month := MonthFromTime t + 1;
            iso_day := DateFromTime t; iso_has_time := true;
            iso_hour := HourFromTime t; iso_minute := MinFromTime t;
            iso_second := SecFromTime t; iso_ms := 0;
            iso_offset := Some 0 |}.
Proof.
  intros Ht.
  pose proof (YearFromTime_range t Ht) as Hy.
  pose proof (MonthFromTime_range t) as Hm.
  pose proof (DateFromTime_range t) as Hd.
  pose proof (DaysInMonth_le_31 (YearFromTime t) _ Hm) as Hd'.
  pose proof (time_fields_range t) as (Hh & Hmi & Hs & _).
  unfold date_time_string, read_iso.
  rewrite !app_assoc_string.
  rewrite read_year_string by lia.
  unfold read_month_day, read_time.
  repeat (cbn [bind_opt append accept Ascii.eqb Bool.eqb guard];
          rewrite read_digits_pad_small by (cbn; lia)).
  cbn [bind_opt append accept Ascii.eqb Bool.eqb guard read_offset].
  unfold fields_in_bounds.
  cbn [iso_year iso_month iso_day iso_hour iso_minute iso_second iso_ms].
  replace (MonthFromTime t + 1 - 1) with (MonthFromTime t) by lia.
  repeat match goal with
         | |- context [?a <=? ?b] =>
             destruct (Z.leb_spec a b); [| lia]
         end.
  destruct (Z.eqb_spec (HourFromTime t) 24); [lia |]. reflexivity.
Qed.

Lemma time_of_date_time tza t :
  time_of_fields tza
    {| iso_year := YearFromTime t; iso_month := MonthFromTime t + 1;
       iso_day := DateFromTime t; iso_has_time := true;
       iso_hour := HourFromTime t; iso_minute := MinFromTime t;
       iso_second := SecFromTime t; iso_ms := 0;
       iso_offset := Some 0 |}
  = t - msFromTime t.
Proof.
  unfold time_of_fields.
  cbn [iso_year iso_month iso_day iso_hour iso_minute iso_second iso_ms
       iso_offset iso_has_time].
  replace (MonthFromTime t + 1 - 1) with (MonthFromTime t) by lia.
  rewrite MakeDay_fields, MakeDate_fields. lia.
Qed.

End IsoRoundTrip.

(** ** [formatToISO8601] *)

Section Normalisation.
Import DateArith IsoFormat.
Variable p : platform.

Lemma api_format_same f :
  AmazonApiSettings.formatToISO8601 p f = AmazonSettings.formatToISO8601 p f.
Proof. reflexivity. Qed.

Lemma Date_parse_range s tv : Date_parse p s = Some tv -> Z.abs tv <= maxTime.
Proof.
  unfold Date_parse, bind_opt, TimeClip. intros H.
  destruct (read_iso s) as [f |]; [| destruct (fallback_parse p s) as [t |]; [| discriminate]];
    match type of H with (if ?a <=? ?b then _ else _) = _ =>
      destruct (Z.leb_spec a b); [| discriminate] end;
    injection H as <-; assumption.
Qed.

Lemma Date_parse_date_time tv :
  Z.abs tv <= maxTime ->
  Date_parse p (date_time_string tv ++ "Z") = Some (tv - msFromTime tv).
Proof.
  intros H. unfold Date_parse.
  rewrite read_iso_date_time by assumption.
  rewrite time_of_date_time. unfold TimeClip.
  destruct (Z.leb_spec (Z.abs (tv - msFromTime tv)) maxTime) as [| L]; [reflexivity |].
  exfalso. unfold msFromTime, msPerSecond, maxTime in *.
  Z.to_euclidean_division_equations; lia.
Qed.

Lemma date_time_string_whole tv :
  date_time_string (tv - msFromTime tv) = date_time_string tv.
Proof.
  unfold date_time_string.
  destruct (fields_of_whole_second tv) as (-> & -> & -> & -> & -> & -> & _).
  reflexivity.
Qed.

Lemma date_time_string_nonempty tv r : date_time_string tv ++ r <> "".
Proof.
  unfold date_time_string, year_string.
  destruct ((0 <=? YearFromTime tv) && (YearFromTime tv <=? 9999)); discriminate.
Qed.

Lemma format_falsy f :
  truthy (js_of_field f) = false ->
  AmazonSettings.formatToISO8601 p f = ([], Normal None).
Proof. intros H. unfold AmazonSettings.formatToISO8601. now rewrite H. Qed.

Lemma format_parsed s tv :
  s <> "" -> Date_parse p s = Some tv ->
  AmazonSettings.formatToISO8601 p (FStr s)
  = ([NewDate (JStr s)], Normal (Some (date_time_string tv ++ "Z"))).
Proof.
  intros Hs Hp. unfold AmazonSettings.formatToISO8601. cbn [js_of_field truthy].
  destruct (String.eqb_spec s ""); [contradiction |]. cbn [negb].
  unfold new_Date. cbn. rewrite Hp. cbn.
  now rewrite first_of_iso_string.
Qed.

Lemma format_unparsed s :
  s <> "" -> Date_parse p s = None ->
  AmazonSettings.formatToISO8601 p (FStr s)
  = ([NewDate (JStr s)], Throw (RangeError "Invalid time value")).
Proof.
  intros Hs Hp. unfold AmazonSettings.formatToISO8601. cbn [js_of_field truthy].
  destruct (String.eqb_spec s ""); [contradiction |]. cbn [negb].
  unfold new_Date. cbn. now rewrite Hp.
Qed.

Lemma format_trace f :
  trace (AmazonSettings.formatToISO8601 p f) = date_events f.
Proof.
  unfold date_events.
  destruct f as [| | s]; try reflexivity.
  cbn [js_of_field truthy]. destruct (String.eqb_spec s "") as [-> | Hs]; [reflexivity |].
  destruct (Date_parse p s) as [tv |] eqn:E.
  - now rewrite (format_parsed _ _ Hs E).
  - now rewrite (format_unparsed _ Hs E).
Qed.

Lemma format_normal f :
  normalizes p f = true ->
  AmazonSettings.formatToISO8601 p f = (date_events f, Normal (normalized p f)).
Proof.
  destruct f as [| | s]; try reflexivity.
  unfold normalizes, normalized, date_events. cbn [js_of_field truthy].
  destruct (String.eqb_spec s "") as [-> | Hs]; [reflexivity |].
  destruct (Date_parse p s) as [tv |] eqn:E; [| discriminate].
  intros _. now rewrite (format_parsed _ _ Hs E).
Qed.

Lemma format_throw f :
  normalizes p f = false ->
  AmazonSettings.formatToISO8601 p f
  = (date_events f, Throw (RangeError "Invalid time value")).
Proof.
  destruct f as [| | s]; try discriminate.
  unfold normalizes, date_events. cbn [js_of_field truthy].
  destruct (String.eqb_spec s "") as [-> | Hs]; [discriminate |].
  destruct (Date_parse p s) as [tv |] eqn:E; [discriminate |].
  intros _. now rewrite (format_unparsed _ Hs E).
Qed.

Lemma format_normal_inv f v :
  result (AmazonSettings.formatToISO8601 p f) = Normal v ->
  normalizes p f = true /\ v = normalized p f.
Proof.
  destruct (normalizes p f) eqn:N.
  - rewrite (format_normal _ N). cbn. intros [= <-]. now split.
  - rewrite (format_throw _ N). discriminate.
Qed.

End Normalisation.

(** ** The two handlers *)

Section Handlers.
Variable p : platform.

Lemma settings_load_sync_normal frm :
  normalizes p (from_date frm) = true -> normalizes p (to_date frm) = true ->
  AmazonSettings.load_sync p frm
  = ((date_events (from_date frm) ++ date_events (to_date frm)
      ++ [ConsoleLog [JStr ("From Date (ISO): "
                            ++ JsString.interpolate (normalized p (from_date frm)))];
          ConsoleLog [JStr ("To Date (ISO): "
                            ++ JsString.interpolate (normalized p (to_date frm)))];
          Freeze "Fetching orders from Amazon...";
          FrappeCall (AmazonSettings.call_object p
                        (normalized p (from_date frm))
                        (normalized p (to_date frm)))])%list,
     Normal tt).
Proof.
  intros N1 N2. unfold AmazonSettings.load_sync.
  rewrite (format_normal p _ N1), (format_normal p _ N2). reflexivity.
Qed.

Lemma settings_load_sync_throw frm :
  normalizes p (from_date frm) && normalizes p (to_date frm) = false ->
  exists tr, forallb is_new_date tr = true
    /\ AmazonSettings.load_sync p frm = (tr, Throw (RangeError "Invalid time value")).
Proof.
  intros N. unfold AmazonSettings.load_sync.
  destruct (normalizes p (from_date frm)) eqn:N1.
  - rewrite andb_true_l in N. rewrite (format_normal p _ N1), (format_throw p _ N).
    eexists; split; [| reflexivity]. unfold date_events.
    destruct (truthy (js_of_field (from_date frm))),
      (truthy (js_of_field (to_date frm))); reflexivity.
  - rewrite (format_throw p _ N1).
    eexists; split; [| reflexivity]. unfold date_events.
    destruct (truthy (js_of_field (from_date frm))); reflexivity.
Qed.

Lemma api_load_sync_normal frm :
  normalizes p (from_date frm) = true -> normalizes p (to_date frm) = true ->
  AmazonApiSettings.load_sync p frm
  = ((date_events (from_date frm) ++ date_events (to_date frm)
      ++ [ConsoleLog [JStr ("From Date (ISO): "
                            ++ JsString.interpolate (normalized p (from_date frm)))];
          ConsoleLog [JStr ("From Date (ISO): "
                            ++ JsString.interpolate (normalized p (to_date frm)))];
          FrappeCall (AmazonApiSettings.call_object p
                        (normalized p (from_date frm))
                        (normalized p (to_date frm)))])%list,
     Normal tt).
Proof.
  intros N1 N2. unfold AmazonApiSettings.load_sync.
  change AmazonApiSettings.formatToISO8601 with AmazonSettings.formatToISO8601.
  rewrite (format_normal p _ N1), (format_normal p _ N2). reflexivity.
Qed.

Lemma api_load_sync_throw frm :
  normalizes p (from_date frm) && normalizes p (to_date frm) = false ->
  exists tr, forallb is_new_date tr = true
    /\ AmazonApiSettings.load_sync p frm = (tr, Throw (RangeError "Invalid time value")).
Proof.
  intros N. unfold AmazonApiSettings.load_sync.
  change AmazonApiSettings.formatToISO8601 with AmazonSettings.formatToISO8601.
  destruct (normalizes p (from_date frm)) eqn:N1.
  - rewrite andb_true_l in N. rewrite (format_normal p _ N1), (format_throw p _ N).
    eexists; split; [| reflexivity]. unfold date_events.
    destruct (truthy (js_of_field (from_date frm))),
      (truthy (js_of_field (to_date frm))); reflexivity.
  - rewrite (format_throw p _ N1).
    eexists; split; [| reflexivity]. unfold date_events.
    destruct (truthy (js_of_field (from_date frm))); reflexivity.
Qed.

Lemma issued_new_dates tr : forallb is_new_date tr = true -> issued tr = [].
Proof.
  induction tr as [| e tr IH]; [reflexivity |].
  cbn [forallb]. intros H. apply andb_true_iff in H as [He Ht].
  destruct e; try discriminate. cbn. auto.
Qed.

Lemma issued_app a b : issued (a ++ b) = (issued a ++ issued b)%list.
Proof.
  induction a as [| e a IH]; [reflexivity |].
  destruct e; cbn; rewrite ?IH; reflexivity.
Qed.

Lemma issued_date_events f : issued (date_events f) = [].
Proof. unfold date_events. destruct (truthy (js_of_field f)); reflexivity. Qed.

Lemma settings_issued frm :
  issued (trace (AmazonSettings.load_sync p frm))
  = if normalizes p (from_date frm) && normalizes p (to_date frm)
    then [AmazonSettings.call_object p (normalized p (from_date frm))
            (normalized p (to_date frm))]
    else [].
Proof.
  destruct (normalizes p (from_date frm) && normalizes p (to_date frm)) eqn:N.
  - apply andb_true_iff in N as [N1 N2].
    rewrite (settings_load_sync_normal _ N1 N2). cbn [trace fst].
    rewrite !issued_app, !issued_date_events. reflexivity.
  - destruct (settings_load_sync_throw _ N) as (tr & Htr & ->).
    now apply issued_new_dates.
Qed.

Lemma api_issued frm :
  issued (trace (AmazonApiSettings.load_sync p frm))
  = if normalizes p (from_date frm) && normalizes p (to_date frm)
    then [AmazonApiSettings.call_object p (normalized p (from_date frm))
            (normalized p (to_date frm))]
    else [].
Proof.
  destruct (normalizes p (from_date frm) && normalizes p (to_date frm)) eqn:N.
  - apply andb_true_iff in N as [N1 N2].
    rewrite (api_load_sync_normal _ N1 N2). cbn [trace fst].
    rewrite !issued_app, !issued_date_events. reflexivity.
  - destruct (api_load_sync_throw _ N) as (tr & Htr & ->).
    now apply issued_new_dates.
Qed.

End Handlers.

(** ** Runs *)

Lemma settings_issued_inv p frm o :
  In o (issued (trace (AmazonSettings.load_sync p frm))) ->
  o = AmazonSettings.call_object p (normalized p (from_date frm))
        (normalized p (to_date frm))
  /\ normalizes p (from_date frm) = true /\ normalizes p (to_date frm) = true.
Proof.
  rewrite settings_issued.
  destruct (normalizes p (from_date frm)), (normalizes p (to_date frm));
    cbn; intros H; try contradiction; destruct H as [<- | []]; auto.
Qed.

Lemma api_issued_inv p frm o :
  In o (issued (trace (AmazonApiSettings.load_sync p frm))) ->
  o = AmazonApiSettings.call_object p (normalized p (from_date frm))
        (normalized p (to_date frm))
  /\ normalizes p (from_date frm) = true /\ normalizes p (to_date frm) = true.
Proof.
  rewrite api_issued.
  destruct (normalizes p (from_date frm)), (normalizes p (to_date frm));
    cbn; intros H; try contradiction; destruct H as [<- | []]; auto.
Qed.

Lemma settings_run_events p frm out :
  normalizes p (from_date frm) = true -> normalizes p (to_date frm) = true ->
  let c := AmazonSettings.call_object p (normalized p (from_date frm))
             (normalized p (to_date frm)) in
  events (run (AmazonSettings.load_sync p frm) out)
  = (date_events (from_date frm) ++ date_events (to_date frm)
     ++ [ConsoleLog [JStr ("From Date (ISO): "
                           ++ JsString.interpolate (normalized p (from_date frm)))];
         ConsoleLog [JStr ("To Date (ISO): "
                           ++ JsString.interpolate (normalized p (to_date frm)))];
         Freeze "Fetching orders from Amazon...";
         FrappeCall c]
     ++ trace (settle c out))%list.
Proof.
  intros N1 N2 c. unfold run. cbn [events].
  rewrite settings_issued, N1, N2. cbn [andb map List.concat].
  rewrite (settings_load_sync_normal _ _ N1 N2). cbn [trace fst].
  rewrite app_nil_r, <- !app_assoc. reflexivity.
Qed.

Lemma api_run_events p frm out :
  normalizes p (from_date frm) = true -> normalizes p (to_date frm) = true ->
  let c := AmazonApiSettings.call_object p (normalized p (from_date frm))
             (normalized p (to_date frm)) in
  events (run (AmazonApiSettings.load_sync p frm) out)
  = (date_events (from_date frm) ++ date_events (to_date frm)
     ++ [ConsoleLog [JStr ("From Date (ISO): "
                           ++ JsString.interpolate (normalized p (from_date frm)))];
         ConsoleLog [JStr ("From Date (ISO): "
                           ++ JsString.interpolate (normalized p (to_date frm)))];
         FrappeCall c]
     ++ trace (settle c out))%list.
Proof.
  intros N1 N2 c. unfold run. cbn [events].
  rewrite api_issued, N1, N2. cbn [andb map List.concat].
  rewrite (api_load_sync_normal _ _ N1 N2). cbn [trace fst].
  rewrite app_nil_r, <- !app_assoc. reflexivity.
Qed.

Lemma settings_run_throw p frm out :
  normalizes p (from_date frm) && normalizes p (to_date frm) = false ->
  exists tr, forallb is_new_date tr = true
    /\ events (run (AmazonSettings.load_sync p frm) out) = tr
    /\ handler_completion (run (AmazonSettings.load_sync p frm) out)
       = Throw (RangeError "Invalid time value").
Proof.
  intros N. unfold run. cbn [events handler_completion].
  rewrite settings_issued, N. cbn [map List.concat].
  destruct (settings_load_sync_throw _ _ N) as (tr & Htr & ->).
  exists tr. cbn. rewrite app_nil_r. auto.
Qed.

Lemma api_run_throw p frm out :
  normalizes p (from_date frm) && normalizes p (to_date frm) = false ->
  exists tr, forallb is_new_date tr = true
    /\ events (run (AmazonApiSettings.load_sync p frm) out) = tr
    /\ handler_completion (run (AmazonApiSettings.load_sync p frm) out)
       = Throw (RangeError "Invalid time value").
Proof.
  intros N. unfold run. cbn [events handler_completion].
  rewrite api_issued, N. cbn [map List.concat].
  destruct (api_load_sync_throw _ _ N) as (tr & Htr & ->).
  exists tr. cbn. rewrite app_nil_r. auto.
Qed.

Lemma count_new_dates f tr :
  (forall v, f (NewDate v) = false) ->
  forallb is_new_date tr = true -> count f tr = 0%nat.
Proof.
  intros Hf. unfold count. induction tr as [| e tr IH]; [reflexivity |].
  cbn [forallb]. intros H. apply andb_true_iff in H as [He Ht].
  destruct e; try discriminate. cbn. rewrite Hf. auto.
Qed.

Lemma settings_run_completions p frm out :
  normalizes p (from_date frm) = true -> normalizes p (to_date frm) = true ->
  handler_completion (run (AmazonSettings.load_sync p frm) out) = Normal tt
  /\ callback_completions (run (AmazonSettings.load_sync p frm) out) = [Normal tt].
Proof.
  intros N1 N2. unfold run. cbn [handler_completion callback_completions].
  rewrite settings_issued, N1, N2. cbn [andb map].
  rewrite (settings_load_sync_normal _ _ N1 N2). split; [reflexivity |].
  destruct out as [res | err]; cbn; [| reflexivity].
  unfold AmazonSettings.on_callback.
  destruct (truthy (res_message res) && Array_isArray (res_message res)
            && length_gt_0 (res_message res)); reflexivity.
Qed.

Ltac trace_cases frm :=
  unfold date_events;
  destruct (truthy (js_of_field (from_date frm)));
  destruct (truthy (js_of_field (to_date frm))).

Lemma settings_run_discipline p frm out :
  normalizes p (from_date frm) = true -> normalizes p (to_date frm) = true ->
  let tr := events (run (AmazonSettings.load_sync p frm) out) in
  count is_freeze tr = 1%nat
  /\ precedes is_freeze is_call tr = true
  /\ count is_unfreeze tr = 1%nat
  /\ precedes is_call is_unfreeze tr = true
  /\ precedes is_unfreeze is_notice tr = true
  /\ count is_notice tr = 1%nat
  /\ count is_call tr = 1%nat.
Proof.
  intros N1 N2. cbv zeta. rewrite (settings_run_events _ _ _ N1 N2). cbv zeta.
  destruct out as [res | err]; cbn [settle AmazonSettings.call_object callback error].
  - unfold AmazonSettings.on_callback.
    destruct (truthy (res_message res) && Array_isArray (res_message res)
              && length_gt_0 (res_message res));
      trace_cases frm; repeat split; reflexivity.
  - trace_cases frm; repeat split; reflexivity.
Qed.

Lemma settings_settle_issues_nothing p v1 v2 out :
  issued (trace (settle (AmazonSettings.call_object p v1 v2) out)) = [].
Proof.
  destruct out as [res | err]; cbn; [| reflexivity].
  unfold AmazonSettings.on_callback.
  destruct (truthy (res_message res) && Array_isArray (res_message res)
            && length_gt_0 (res_message res)); reflexivity.
Qed.

Lemma api_settle_issues_nothing p v1 v2 out :
  issued (trace (settle (AmazonApiSettings.call_object p v1 v2) out)) = [].
Proof.
  destruct out as [res | err]; cbn; [| reflexivity].
  unfold AmazonApiSettings.on_callback.
  destruct (truthy (res_message res)); reflexivity.
Qed.

Lemma falsy_normalizes p f :
  truthy (js_of_field f) = false ->
  normalizes p f = true /\ normalized p f = None.
Proof.
  destruct f as [| | s]; cbn; auto.
  destruct (String.eqb s ""); [auto | discriminate].
Qed.

Lemma matches_date_time_string t :
  0 <= DateArith.YearFromTime t <= 9999 ->
  matches iso_seconds_pattern (IsoFormat.date_time_string t ++ "Z") = true.
Proof.
  intros Hy. unfold IsoFormat.date_time_string, IsoFormat.year_string.
  destruct (Z.leb_spec 0 (DateArith.YearFromTime t)); [| lia].
  destruct (Z.leb_spec (DateArith.YearFromTime t) 9999); [| lia].
  cbn [andb]. rewrite !app_assoc_string.
  change iso_seconds_pattern
    with (repeat D 4 ++ C "-" :: repeat D 2 ++ C "-" :: repeat D 2 ++ C "T"
          :: repeat D 2 ++ C ":" :: repeat D 2 ++ C ":" :: repeat D 2
          ++ [C "Z"])%list%char.
  repeat (rewrite matches_pad; cbn [append matches Ascii.eqb Bool.eqb andb]).
  reflexivity.
Qed.

(** * The claims *)

(** C1, as amended.  A resolved response to the call of the "Amazon
    Settings" handler renders the yellow information notice when
    [message] is [undefined], [null] or an empty array and the green
    success notice when it is an array of at least one element.  For the
    "Amazon API Settings" handler an [undefined] or [null] message renders
    the red notice titled Error, and an array of at least one element the
    green success notice. *)
Theorem C1_response_classification (p : platform) (frm : doc) (res : response) :
  (forall o, In o (issued (trace (AmazonSettings.load_sync p frm))) ->
     (empty_payload (res_message res) = true ->
      notices (trace (settle o (Resolved res))) = [AmazonSettings.information_notice p]
      /\ variant_of (AmazonSettings.information_notice p) = Some Information)
     /\ (nonempty_sequence (res_message res) = true ->
      notices (trace (settle o (Resolved res))) = [AmazonSettings.success_notice p]
      /\ variant_of (AmazonSettings.success_notice p) = Some Success))
  /\ (forall o, In o (issued (trace (AmazonApiSettings.load_sync p frm))) ->
     (res_message res = JUndefined \/ res_message res = JNull ->
      notices (trace (settle o (Resolved res))) = [AmazonApiSettings.error_notice p]
      /\ variant_of (AmazonApiSettings.error_notice p) = Some Failure)
     /\ (nonempty_sequence (res_message res) = true ->
      notices (trace (settle o (Resolved res))) = [AmazonApiSettings.success_notice p]
      /\ variant_of (AmazonApiSettings.success_notice p) = Some Success)).
Proof.
  split; intros o Ho.
  - apply settings_issued_inv in Ho as (-> & _ & _).
    cbn [settle AmazonSettings.call_object callback].
    unfold AmazonSettings.on_callback.
    split; intros H; destruct (res_message res) as [| | | | | [| x l] |];
      try discriminate; split; reflexivity.
  - apply api_issued_inv in Ho as (-> & _ & _).
    cbn [settle AmazonApiSettings.call_object callback].
    unfold AmazonApiSettings.on_callback.
    split.
    + intros [-> | ->]; split; reflexivity.
    + intros H; destruct (res_message res) as [| | | | | [| x l] |];
        try discriminate; split; reflexivity.
Qed.

Lemma C1_response_classification_witness :
  notices (trace (settle (AmazonSettings.call_object Engine.utc None None)
                    (Resolved {| res_message := JArr [] |})))
  = [AmazonSettings.information_notice Engine.utc]
  /\ notices (trace (settle (AmazonApiSettings.call_object Engine.utc None None)
                       (Resolved {| res_message := JArr [JObj []] |})))
     = [AmazonApiSettings.success_notice Engine.utc].
Proof.
  split.
  - apply (proj1 (C1_response_classification Engine.utc unset_doc
                    {| res_message := JArr [] |})).
    + left; reflexivity.
    + reflexivity.
  - apply (proj2 (C1_response_classification Engine.utc unset_doc
                    {| res_message := JArr [JObj []] |})).
    + left; reflexivity.
    + reflexivity.
Defined.

(** C1 fails as stated on the "Amazon API Settings" handler: a [null]
    message renders the red notice, not an informational one, and an
    empty array renders the success notice. *)
Lemma C1_counterexample :
  map variant_of
    (notices (events (run (AmazonApiSettings.load_sync Engine.utc unset_doc)
                        (Resolved {| res_message := JNull |}))))
  = [Some Failure]
  /\ map variant_of
    (notices (events (run (AmazonApiSettings.load_sync Engine.utc unset_doc)
                        (Resolved {| res_message := JArr [] |}))))
  = [Some Success].
Proof. split; reflexivity. Qed.

(** C2, as amended.  In the "Amazon Settings" handler, on every
    invocation whose two date fields normalise, the overlay is displayed
    once, before the call is issued; whatever the outcome (success, empty
    result, transport error) it is cleared exactly once, after the call and
    before the single notice.  An invocation that throws during
    normalisation neither shows nor clears the overlay, and the "Amazon API
    Settings" handler never does. *)
Theorem C2_overlay_discipline (p : platform) (frm : doc) (out : rpc_outcome) :
  (normalizes p (from_date frm) = true -> normalizes p (to_date frm) = true ->
   let tr := events (run (AmazonSettings.load_sync p frm) out) in
   count is_freeze tr = 1%nat
   /\ precedes is_freeze is_call tr = true
   /\ count is_unfreeze tr = 1%nat
   /\ precedes is_call is_unfreeze tr = true
   /\ precedes is_unfreeze is_notice tr = true
   /\ count is_notice tr = 1%nat
   /\ count is_call tr = 1%nat)
  /\ (normalizes p (from_date frm) && normalizes p (to_date frm) = false ->
      let tr := events (run (AmazonSettings.load_sync p frm) out) in
      count is_freeze tr = 0%nat /\ count is_unfreeze tr = 0%nat)
  /\ (let tr := events (run (AmazonApiSettings.load_sync p frm) out) in
      count is_freeze tr = 0%nat /\ count is_unfreeze tr = 0%nat).
Proof.
  split; [| split].
  - intros N1 N2. exact (settings_run_discipline p frm out N1 N2).
  - intros N. cbv zeta.
    destruct (settings_run_throw _ _ out N) as (tr & Htr & -> & _).
    split; apply count_new_dates; auto.
  - cbv zeta.
    destruct (normalizes p (from_date frm) && normalizes p (to_date frm)) eqn:N.
    + apply andb_true_iff in N as [N1 N2].
      rewrite (api_run_events _ _ _ N1 N2). cbv zeta.
      destruct out as [res | err];
        cbn [settle AmazonApiSettings.call_object callback error].
      * unfold AmazonApiSettings.on_callback.
        destruct (truthy (res_message res)); trace_cases frm; split; reflexivity.
      * trace_cases frm; split; reflexivity.
    + destruct (api_run_throw _ _ out N) as (tr & Htr & -> & _).
      split; apply count_new_dates; auto.
Qed.

Lemma C2_overlay_discipline_witness :
  let tr := events (run (AmazonSettings.load_sync Engine.utc unset_doc)
                      (Rejected JNull)) in
  count is_freeze tr = 1%nat
  /\ precedes is_freeze is_call tr = true
  /\ count is_unfreeze tr = 1%nat
  /\ precedes is_call is_unfreeze tr = true
  /\ precedes is_unfreeze is_notice tr = true
  /\ count is_notice tr = 1%nat
  /\ count is_call tr = 1%nat.
Proof.
  apply (proj1 (C2_overlay_discipline Engine.utc unset_doc (Rejected JNull)));
    reflexivity.
Defined.

(** C2 fails as stated: the "Amazon API Settings" handler issues its call
    and shows its notice without any overlay, and an "Amazon Settings"
    invocation with an unparseable date displays none. *)
Lemma C2_counterexample :
  (let tr := events (run (AmazonApiSettings.load_sync Engine.utc unset_doc)
                       (Resolved {| res_message := JNull |})) in
   count is_call tr = 1%nat /\ count is_notice tr = 1%nat
   /\ count is_freeze tr = 0%nat /\ precedes is_freeze is_call tr = false
   /\ count is_unfreeze tr = 0%nat /\ precedes is_unfreeze is_notice tr = false)
  /\ count is_freeze
       (events (run (AmazonSettings.load_sync Engine.utc bad_doc)
                  (Resolved {| res_message := JNull |}))) = 0%nat.
Proof. cbv zeta. repeat split; reflexivity. Qed.

(** C3, as amended.  When each date field of the form is absent, empty or
    a string the date parser gives a time for, no exception leaves the
    "Amazon Settings" handler or its callbacks, whatever the outcome of the
    call, and the run ends with exactly one notice rendered.  When a field
    holds a string the parser rejects, [toISOString] throws a RangeError
    that leaves the handler: no call is issued and no notice rendered. *)
Theorem C3_exceptions (p : platform) (frm : doc) (out : rpc_outcome) :
  let r := run (AmazonSettings.load_sync p frm) out in
  (normalizes p (from_date frm) && normalizes p (to_date frm) = true ->
   handler_completion r = Normal tt
   /\ Forall (fun c => c = Normal tt) (callback_completions r)
   /\ count is_notice (events r) = 1%nat)
  /\ (normalizes p (from_date frm) && normalizes p (to_date frm) = false ->
      handler_completion r = Throw (RangeError "Invalid time value")
      /\ count is_call (events r) = 0%nat
      /\ count is_notice (events r) = 0%nat).
Proof.
  cbv zeta. split; intros N.
  - apply andb_true_iff in N as [N1 N2].
    destruct (settings_run_completions p frm out N1 N2) as [-> ->].
    split; [reflexivity |]. split; [repeat constructor |].
    apply (settings_run_discipline p frm out N1 N2).
  - destruct (settings_run_throw _ _ out N) as (tr & Htr & -> & ->).
    split; [reflexivity |]. split; apply count_new_dates; auto.
Qed.

Lemma C3_exceptions_witness :
  let r := run (AmazonSettings.load_sync Engine.utc unset_doc)
             (Rejected (JStr "timeout")) in
  handler_completion r = Normal tt
  /\ Forall (fun c => c = Normal tt) (callback_completions r)
  /\ count is_notice (events r) = 1%nat.
Proof.
  apply (proj1 (C3_exceptions Engine.utc unset_doc (Rejected (JStr "timeout")))).
  reflexivity.
Defined.

(** C3 fails as stated: with [from_date = "not a date"] the handler ends
    in a RangeError, having rendered no notice. *)
Lemma C3_counterexample :
  let r := run (AmazonSettings.load_sync Engine.utc bad_doc)
             (Resolved {| res_message := JNull |}) in
  Date_parse Engine.utc "not a date" = None
  /\ handler_completion r = Throw (RangeError "Invalid time value")
  /\ notices (events r) = [].
Proof. cbv zeta. repeat split; reflexivity. Qed.

(** C4, as amended.  When the call of the "Amazon Settings" handler is
    rejected, the handler clears the overlay, logs the failure detail with
    [console.error] and renders the red error notice, in this order, and
    the whole run clears the overlay exactly once.  The "Amazon API
    Settings" handler passes no [error] function: on a rejected call it
    renders, logs and clears nothing. *)
Theorem C4_rejected_call (p : platform) (frm : doc) (err : jsval) :
  (forall o, In o (issued (trace (AmazonSettings.load_sync p frm))) ->
     trace (settle o (Rejected err))
     = [Unfreeze; ConsoleError [JStr "Error syncing orders:"; err];
        Msgprint (AmazonSettings.error_notice p)]
     /\ variant_of (AmazonSettings.error_notice p) = Some Failure
     /\ count is_unfreeze
          (events (run (AmazonSettings.load_sync p frm) (Rejected err))) = 1%nat)
  /\ (forall o, In o (issued (trace (AmazonApiSettings.load_sync p frm))) ->
     trace (settle o (Rejected err)) = []).
Proof.
  split; intros o Ho.
  - apply settings_issued_inv in Ho as (-> & N1 & N2).
    split; [reflexivity |]. split; [reflexivity |].
    apply (settings_run_discipline p frm (Rejected err) N1 N2).
  - apply api_issued_inv in Ho as (-> & _ & _). reflexivity.
Qed.

Lemma C4_rejected_call_witness :
  trace (settle (AmazonSettings.call_object Engine.utc None None)
           (Rejected (JStr "timeout")))
  = [Unfreeze; ConsoleError [JStr "Error syncing orders:"; JStr "timeout"];
     Msgprint (AmazonSettings.error_notice Engine.utc)]
  /\ trace (settle (AmazonApiSettings.call_object Engine.utc None None)
              (Rejected (JStr "timeout"))) = [].
Proof.
  split.
  - apply (proj1 (C4_rejected_call Engine.utc unset_doc (JStr "timeout"))).
    left; reflexivity.
  - apply (proj2 (C4_rejected_call Engine.utc unset_doc (JStr "timeout"))).
    left; reflexivity.
Defined.

(** C4 fails as stated on the "Amazon API Settings" handler: after a
    rejected call the run holds no notice, no [console.error] and no
    clearing of the overlay. *)
Lemma C4_counterexample :
  let tr := events (run (AmazonApiSettings.load_sync Engine.utc unset_doc)
                      (Rejected (JStr "timeout"))) in
  count is_call tr = 1%nat
  /\ notices tr = []
  /\ count is_console_error tr = 0%nat
  /\ count is_unfreeze tr = 0%nat.
Proof. cbv zeta. repeat split; reflexivity. Qed.

(** C5.  On an absent or empty date ([undefined], [null] or the empty
    string) [formatToISO8601] returns [null] and constructs no [Date]; every
    remote call the handler issues carries [null] under the corresponding
    parameter, and the call is issued as soon as the other field
    normalises. *)
Theorem C5_absent_date (p : platform) (f : field_value) :
  truthy (js_of_field f) = false ->
  AmazonSettings.formatToISO8601 p f = ([], Normal None)
  /\ count is_new_date (trace (AmazonSettings.formatToISO8601 p f)) = 0%nat
  /\ (forall frm o,
        In o (issued (trace (AmazonSettings.load_sync p frm))) ->
        (from_date frm = f -> lookup "created_after" (args o) = Some JNull)
        /\ (to_date frm = f -> lookup "created_before" (args o) = Some JNull))
  /\ (forall g,
        normalizes p g = true ->
        (exists o, issued (trace (AmazonSettings.load_sync p
                                    {| from_date := f; to_date := g |})) = [o]
                   /\ lookup "created_after" (args o) = Some JNull)
        /\ (exists o, issued (trace (AmazonSettings.load_sync p
                                       {| from_date := g; to_date := f |})) = [o]
                      /\ lookup "created_before" (args o) = Some JNull)).
Proof.
  intros Hf. destruct (falsy_normalizes p f Hf) as [Nf Vf].
  rewrite (format_falsy p f Hf).
  split; [reflexivity |]. split; [reflexivity |]. split.
  - intros frm o Ho. apply settings_issued_inv in Ho as (-> & _ & _).
    split; intros ->; cbn; rewrite Vf; reflexivity.
  - intros g Ng. split; eexists; rewrite settings_issued; cbn [from_date to_date];
      rewrite Nf, Ng, Vf; split; reflexivity.
Qed.

Lemma C5_absent_date_witness :
  AmazonSettings.formatToISO8601 Engine.kolkata (FStr "") = ([], Normal None)
  /\ AmazonSettings.formatToISO8601 Engine.kolkata FUndefined = ([], Normal None).
Proof.
  split.
  - apply (C5_absent_date Engine.kolkata (FStr "")). reflexivity.
  - apply (C5_absent_date Engine.kolkata FUndefined). reflexivity.
Defined.

(** C6, as amended.  For a non-empty string the date parser gives a time
    for, [formatToISO8601] returns the UTC date and time of that time value
    as [toISOString] prints them, without the [.sss] part and with a [Z]
    appended; read back, the result is the time floored to the whole second
    (the fraction is dropped, not rounded); when the UTC year lies between 0
    and 9999 the result matches [YYYY-MM-DDTHH:mm:ssZ].  The parser reads a
    string of the Date Time String Format without a UTC offset as local
    time when it has a time part and as UTC when it is a date only. *)
Theorem C6_normalisation (p : platform) (s : string) (tv : Z) :
  s <> "" -> Date_parse p s = Some tv ->
  let out := IsoFormat.date_time_string tv ++ "Z" in
  AmazonSettings.formatToISO8601 p (FStr s) = ([NewDate (JStr s)], Normal (Some out))
  /\ toISOString (Some tv)
     = Normal (IsoFormat.date_time_string tv ++ "."
               ++ Digits.pad 3 (DateArith.msFromTime tv) ++ "Z")
  /\ Date_parse p out = Some (1000 * (tv / 1000))
  /\ (0 <= DateArith.YearFromTime tv <= 9999 ->
      matches iso_seconds_pattern out = true)
  /\ (forall f, IsoFormat.read_iso s = Some f -> IsoFormat.iso_offset f = None ->
      let local :=
        DateArith.MakeDate
          (DateArith.MakeDay (IsoFormat.iso_year f) (IsoFormat.iso_month f - 1)
             (IsoFormat.iso_day f))
          (DateArith.MakeTime (IsoFormat.iso_hour f) (IsoFormat.iso_minute f)
             (IsoFormat.iso_second f) (IsoFormat.iso_ms f)) in
      tv = if IsoFormat.iso_has_time f then local - LocalTZA p local else local).
Proof.
  intros Hs Hp out.
  split; [apply format_parsed; assumption |].
  split; [reflexivity |].
  split.
  - unfold out. rewrite Date_parse_date_time by (eapply Date_parse_range; eassumption).
    f_equal. unfold DateArith.msFromTime, DateArith.msPerSecond.
    Z.to_euclidean_division_equations; lia.
  - split; [apply matches_date_time_string |].
    intros f Hf Ho local. unfold Date_parse in Hp. rewrite Hf in Hp.
    unfold DateArith.TimeClip in Hp.
    destruct (Z.abs _ <=? DateArith.maxTime); [| discriminate].
    injection Hp as <-. unfold IsoFormat.time_of_fields. rewrite Ho. reflexivity.
Qed.

Lemma C6_normalisation_witness :
  AmazonSettings.formatToISO8601 Engine.kolkata (FStr "2024-01-15T10:30:00.999")
  = ([NewDate (JStr "2024-01-15T10:30:00.999")],
     Normal (Some (IsoFormat.date_time_string 1705294800999 ++ "Z")))
  /\ matches iso_seconds_pattern (IsoFormat.date_time_string 1705294800999 ++ "Z") = true.
Proof.
  pose proof (C6_normalisation Engine.kolkata "2024-01-15T10:30:00.999" 1705294800999
                ltac:(discriminate) ltac:(vm_compute; reflexivity)) as H.
  cbv zeta in H. destruct H as (H1 & _ & _ & H4 & _).
  split; [exact H1 |]. apply H4. vm_compute. split; discriminate.
Defined.

(** C6 fails as stated: a valid date past the year 9999 is printed with a
    sign and six year digits, outside the pattern; and a date-only string is
    read as UTC, not as local time (in a zone at +05:30 its result differs
    from that of local midnight). *)
Lemma C6_counterexample :
  Date_parse Engine.kolkata "+010000-01-01T00:00:00Z" = Some 253402300800000
  /\ result (AmazonSettings.formatToISO8601 Engine.kolkata (FStr "+010000-01-01T00:00:00Z"))
     = Normal (Some "+010000-01-01T00:00:00Z")
  /\ matches iso_seconds_pattern "+010000-01-01T00:00:00Z" = false
  /\ result (AmazonSettings.formatToISO8601 Engine.kolkata (FStr "2024-01-15"))
     = Normal (Some "2024-01-15T00:00:00Z")
  /\ result (AmazonSettings.formatToISO8601 Engine.kolkata (FStr "2024-01-15T00:00:00"))
     = Normal (Some "2024-01-14T18:30:00Z").
Proof. repeat split; vm_compute; reflexivity. Qed.

(** C7.  Normalisation is idempotent: whenever [formatToISO8601] returns
    a value, [formatToISO8601] applied to that value returns it again. *)
Theorem C7_idempotent (p : platform) (d : field_value) (v : option string) :
  result (AmazonSettings.formatToISO8601 p d) = Normal v ->
  result (AmazonSettings.formatToISO8601 p (field_of_nullable v)) = Normal v.
Proof.
  intros H. apply format_normal_inv in H as [N ->].
  destruct d as [| | s]; try reflexivity.
  unfold normalizes, normalized in *.
  destruct (String.eqb_spec s "") as [Hs | Hs]; [reflexivity |].
  destruct (Date_parse p s) as [tv |] eqn:E; [| discriminate].
  cbn [field_of_nullable].
  rewrite (format_parsed p _ (tv - DateArith.msFromTime tv)).
  - cbn [result snd]. now rewrite date_time_string_whole.
  - apply date_time_string_nonempty.
  - apply Date_parse_date_time. eapply Date_parse_range; eassumption.
Qed.

Lemma C7_idempotent_witness :
  result (AmazonSettings.formatToISO8601 Engine.kolkata
            (field_of_nullable (Some "2024-01-15T05:00:00Z")))
  = Normal (Some "2024-01-15T05:00:00Z").
Proof.
  apply (C7_idempotent Engine.kolkata (FStr "2024-01-15 10:30:00.250")).
  vm_compute. reflexivity.
Defined.

(** C8, as amended.  An invocation of either handler whose two date
    fields normalise issues exactly one remote call over the whole run,
    whatever the outcome (nothing is retried): its method is the fixed
    name, its arguments are exactly [created_after] and [created_before]
    with the two normalised values, and the options carry no other property
    (no timeout).  An invocation that throws during normalisation issues no
    call. *)
Theorem C8_single_call (p : platform) (frm : doc) (out : rpc_outcome) :
  (normalizes p (from_date frm) = true -> normalizes p (to_date frm) = true ->
   exists v1 v2,
     result (AmazonSettings.formatToISO8601 p (from_date frm)) = Normal v1
     /\ result (AmazonSettings.formatToISO8601 p (to_date frm)) = Normal v2
     /\ (exists o,
           issued (events (run (AmazonSettings.load_sync p frm) out)) = [o]
           /\ method o = sync_method
           /\ args o = [("created_after", AmazonSettings.js_of_nullable v1);
                        ("created_before", AmazonSettings.js_of_nullable v2)]
           /\ extra o = [])
     /\ (exists o,
           issued (events (run (AmazonApiSettings.load_sync p frm) out)) = [o]
           /\ method o = sync_method
           /\ args o = [("created_after", AmazonApiSettings.js_of_nullable v1);
                        ("created_before", AmazonApiSettings.js_of_nullable v2)]
           /\ extra o = []))
  /\ (normalizes p (from_date frm) && normalizes p (to_date frm) = false ->
      issued (events (run (AmazonSettings.load_sync p frm) out)) = []
      /\ issued (events (run (AmazonApiSettings.load_sync p frm) out)) = []).
Proof.
  split.
  - intros N1 N2.
    exists (normalized p (from_date frm)), (normalized p (to_date frm)).
    rewrite (format_normal p _ N1), (format_normal p _ N2).
    split; [reflexivity |]. split; [reflexivity |]. split.
    + eexists. rewrite (settings_run_events _ _ _ N1 N2). cbv zeta.
      rewrite !issued_app, !issued_date_events, settings_settle_issues_nothing.
      cbn. repeat split; reflexivity.
    + eexists. rewrite (api_run_events _ _ _ N1 N2). cbv zeta.
      rewrite !issued_app, !issued_date_events, api_settle_issues_nothing.
      cbn. repeat split; reflexivity.
  - intros N.
    destruct (settings_run_throw _ _ out N) as (tr & Htr & -> & _).
    destruct (api_run_throw _ _ out N) as (tr' & Htr' & -> & _).
    split; apply issued_new_dates; assumption.
Qed.

Lemma C8_single_call_witness :
  exists v1 v2,
    result (AmazonSettings.formatToISO8601 Engine.kolkata (FStr "2024-01-15T10:30:00")) = Normal v1
    /\ result (AmazonSettings.formatToISO8601 Engine.kolkata FNull) = Normal v2
    /\ (exists o,
          issued (events (run (AmazonSettings.load_sync Engine.kolkata
                                 {| from_date := FStr "2024-01-15T10:30:00"; to_date := FNull |})
                            (Resolved {| res_message := JArr [] |}))) = [o]
          /\ method o = sync_method
          /\ args o = [("created_after", AmazonSettings.js_of_nullable v1);
                       ("created_before", AmazonSettings.js_of_nullable v2)]
          /\ extra o = [])
    /\ (exists o,
          issued (events (run (AmazonApiSettings.load_sync Engine.kolkata
                                 {| from_date := FStr "2024-01-15T10:30:00"; to_date := FNull |})
                            (Resolved {| res_message := JArr [] |}))) = [o]
          /\ method o = sync_method
          /\ args o = [("created_after", AmazonApiSettings.js_of_nullable v1);
                       ("created_before", AmazonApiSettings.js_of_nullable v2)]
          /\ extra o = []).
Proof.
  apply (proj1 (C8_single_call Engine.kolkata
                  {| from_date := FStr "2024-01-15T10:30:00"; to_date := FNull |}
                  (Resolved {| res_message := JArr [] |})));
    reflexivity.
Defined.

(** C8 fails as stated: an invocation with [from_date = "not a date"]
    issues no remote call, in either handler. *)
Lemma C8_counterexample :
  issued (events (run (AmazonSettings.load_sync Engine.utc bad_doc)
                    (Resolved {| res_message := JNull |}))) = []
  /\ issued (events (run (AmazonApiSettings.load_sync Engine.utc bad_doc)
                       (Resolved {| res_message := JNull |}))) = [].
Proof. split; reflexivity. Qed.

(** C9.  With [from_date = "2024-01-15 10:30:00"] and [to_date = null], on
    a platform that reads the text as local time, the remote call receives
    under [created_after] the UTC rendering of that local time, which is
    "2024-01-15T10:30:00Z" where local time is UTC, and [null] under
    [created_before]. *)
Theorem C9_scenario (p : platform) :
  Date_parse p "2024-01-15 10:30:00"
  = Some (scenario_time - LocalTZA p scenario_time) ->
  exists o,
    issued (trace (AmazonSettings.load_sync p scenario_doc)) = [o]
    /\ args o
       = [("created_after",
           JStr (IsoFormat.date_time_string
                   (scenario_time - LocalTZA p scenario_time) ++ "Z"));
          ("created_before", JNull)]
    /\ (LocalTZA p scenario_time = 0 ->
        args o = [("created_after", JStr "2024-01-15T10:30:00Z");
                  ("created_before", JNull)]).
Proof.
  intros H.
  assert (E : String.eqb "2024-01-15 10:30:00" "" = false) by reflexivity.
  assert (N : normalizes p (from_date scenario_doc) = true).
  { change (from_date scenario_doc) with (FStr "2024-01-15 10:30:00").
    unfold normalizes. now rewrite E, H. }
  assert (V : normalized p (from_date scenario_doc)
              = Some (IsoFormat.date_time_string
                        (scenario_time - LocalTZA p scenario_time) ++ "Z")).
  { change (from_date scenario_doc) with (FStr "2024-01-15 10:30:00").
    unfold normalized. now rewrite E, H. }
  eexists. rewrite settings_issued, N, V.
  change (to_date scenario_doc) with FNull.
  cbn [andb normalizes normalized].
  split; [reflexivity |].
  cbn [args AmazonSettings.call_object AmazonSettings.js_of_nullable].
  split; [reflexivity |].
  intros ->. rewrite Z.sub_0_r.
  vm_compute. reflexivity.
Qed.

Lemma C9_scenario_witness :
  exists o,
    issued (trace (AmazonSettings.load_sync Engine.utc scenario_doc)) = [o]
    /\ args o
       = [("created_after",
           JStr (IsoFormat.date_time_string
                   (scenario_time - LocalTZA Engine.utc scenario_time) ++ "Z"));
          ("created_before", JNull)]
    /\ (LocalTZA Engine.utc scenario_time = 0 ->
        args o = [("created_after", JStr "2024-01-15T10:30:00Z");
                  ("created_before", JNull)]).
Proof. apply (C9_scenario Engine.utc). vm_compute. reflexivity. Defined.

(** C10.  In amazon_settings.js a resolved response whose [message] is
    truthy but not an array renders the yellow information notice, and
    only that one: the success notice is not rendered. *)
Theorem C10_non_array_payload (p : platform) (frm : doc) (res : response) (o : call_options event) :
  In o (issued (trace (AmazonSettings.load_sync p frm))) ->
  truthy (res_message res) = true ->
  Array_isArray (res_message res) = false ->
  notices (trace (settle o (Resolved res))) = [AmazonSettings.information_notice p]
  /\ variant_of (AmazonSettings.information_notice p) = Some Information
  /\ ~ In (AmazonSettings.success_notice p) (notices (trace (settle o (Resolved res)))).
Proof.
  intros Ho Ht Ha.
  apply settings_issued_inv in Ho as (-> & _ & _).
  cbn [settle AmazonSettings.call_object callback].
  unfold AmazonSettings.on_callback. rewrite Ht, Ha.
  split; [reflexivity |]. split; [reflexivity |].
  cbn. intros [H | []]. discriminate H.
Qed.

Lemma C10_non_array_payload_witness :
  notices (trace (settle (AmazonSettings.call_object Engine.utc None None)
                    (Resolved {| res_message := JObj [("orders", JNum (Finite 3 0))] |})))
  = [AmazonSettings.information_notice Engine.utc].
Proof.
  apply (C10_non_array_payload Engine.utc unset_doc
           {| res_message := JObj [("orders", JNum (Finite 3 0))] |});
    [left; reflexivity | reflexivity | reflexivity].
Defined.

(** * Further properties *)

(** ** From a calendar date to its time and back *)

Section CalendarInverse.
Import DateArith.

Ltac div_lia := Z.to_euclidean_division_equations; lia.

Lemma YearFromDay_unique y d :
  DayFromYear y <= d < DayFromYear (y + 1) -> YearFromDay d = y.
Proof.
  intros H. pose proof (YearFromDay_spec d) as S.
  destruct (Z.lt_trichotomy (YearFromDay d) y) as [L | [E | G]]; [| exact E |].
  - pose proof (DayFromYear_mono (YearFromDay d + 1) y ltac:(lia)). lia.
  - pose proof (DayFromYear_mono (y + 1) (YearFromDay d) ltac:(lia)). lia.
Qed.

Lemma monthOfYearDay_unique (leap : bool) m d :
  0 <= m <= 11 -> monthStart leap m <= d < monthStart leap (m + 1) ->
  monthOfYearDay leap d = m.
Proof.
  intros Hm H.
  assert (E : m = 0 \/ m = 1 \/ m = 2 \/ m = 3 \/ m = 4 \/ m = 5 \/ m = 6
              \/ m = 7 \/ m = 8 \/ m = 9 \/ m = 10 \/ m = 11) by lia.
  unfold monthOfYearDay.
  destruct leap;
    repeat (destruct E as [-> | E];
            [cbn in H |- *;
             repeat match goal with
                    | |- context [?a <? ?b] => destruct (Z.ltb_spec a b); try lia
                    end; reflexivity |]);
    subst m; cbn in H |- *;
    repeat match goal with
           | |- context [?a <? ?b] => destruct (Z.ltb_spec a b); try lia
           end; reflexivity.
Qed.

Lemma monthStart_bounds (leap : bool) m :
  0 <= m <= 11 ->
  0 <= monthStart leap m /\ monthStart leap (m + 1) <= (if leap then 366 else 365).
Proof.
  intros Hm.
  assert (E : m = 0 \/ m = 1 \/ m = 2 \/ m = 3 \/ m = 4 \/ m = 5 \/ m = 6
              \/ m = 7 \/ m = 8 \/ m = 9 \/ m = 10 \/ m = 11) by lia.
  destruct leap;
    repeat (destruct E as [-> | E]; [cbn; lia |]); subst m; cbn; lia.
Qed.

(** The fields of the time made of a calendar date and a time of day. *)
Lemma fields_of_made_time y m d h mi sec :
  0 <= m <= 11 -> 1 <= d <= DaysInMonth y m ->
  0 <= h <= 23 -> 0 <= mi <= 59 -> 0 <= sec <= 59 ->
  let t := MakeDate (MakeDay y m d) (MakeTime h mi sec 0) in
  YearFromTime t = y /\ MonthFromTime t = m /\ DateFromTime t = d
  /\ HourFromTime t = h /\ MinFromTime t = mi /\ SecFromTime t = sec
  /\ msFromTime t = 0.
Proof.
  intros Hm Hd Hh Hmi Hs t.
  pose proof (monthStart_bounds (isLeap y) m Hm) as [B1 B2].
  assert (HD : Day t = MakeDay y m d).
  { unfold t, Day, MakeDate, MakeTime, msPerDay, msPerHour, msPerMinute,
      msPerSecond. div_lia. }
  assert (HY : YearFromTime t = y).
  { unfold YearFromTime. rewrite HD. apply YearFromDay_unique.
    rewrite DayFromYear_step. unfold MakeDay, DaysInYear, DaysInMonth in *.
    destruct (isLeap y); lia. }
  assert (HW : DayWithinYear t = monthStart (isLeap y) m + d - 1).
  { unfold DayWithinYear. rewrite HY, HD. unfold MakeDay. lia. }
  assert (HM : MonthFromTime t = m).
  { unfold MonthFromTime, InLeapYear. rewrite HY, HW.
    apply monthOfYearDay_unique; [assumption |].
    unfold DaysInMonth in Hd. lia. }
  split; [exact HY |]. split; [exact HM |].
  split; [unfold DateFromTime, InLeapYear; rewrite HM, HY, HW; lia |].
  unfold t, HourFromTime, MinFromTime, SecFromTime, msFromTime, MakeDate,
    MakeTime, msPerDay, msPerHour, msPerMinute, msPerSecond.
  repeat split; div_lia.
Qed.

Lemma made_time_in_range y m d h mi sec :
  0 <= y <= 9999 -> 0 <= m <= 11 -> 1 <= d <= DaysInMonth y m ->
  0 <= h <= 23 -> 0 <= mi <= 59 -> 0 <= sec <= 59 ->
  Z.abs (MakeDate (MakeDay y m d) (MakeTime h mi sec 0)) <= maxTime.
Proof.
  intros Hy Hm Hd Hh Hmi Hs.
  pose proof (monthStart_bounds (isLeap y) m Hm) as [B1 B2].
  pose proof (DayFromYear_mono 0 y ltac:(lia)) as L.
  pose proof (DayFromYear_mono y 9999 ltac:(lia)) as U.
  change (DayFromYear 0) with (-719528) in L.
  change (DayFromYear 9999) with 2932532 in U.
  unfold DaysInMonth in Hd.
  unfold MakeDate, MakeDay, MakeTime, msPerDay, msPerHour, msPerMinute,
    msPerSecond, maxTime.
  destruct (isLeap y); lia.
Qed.

End CalendarInverse.

(** ** The text of Date fields and of the wire form *)

Section WireText.
Import DateArith Digits IsoFormat.

Lemma app_nil_r_string (a : string) : a ++ EmptyString = a.
Proof. induction a as [| x a IH]; cbn; [reflexivity | now rewrite IH]. Qed.

Lemma valid_date_bounds y m d :
  valid_date y m d = true ->
  0 <= y <= 9999 /\ 0 <= m - 1 <= 11 /\ 1 <= d <= DaysInMonth y (m - 1).
Proof.
  unfold valid_date. intros H.
  repeat (apply andb_true_iff in H as [H ?]).
  repeat match goal with
         | H : (_ <=? _) = true |- _ => apply Z.leb_le in H
         end. lia.
Qed.

Lemma valid_time_bounds h mi sec :
  valid_time h mi sec = true -> 0 <= h <= 23 /\ 0 <= mi <= 59 /\ 0 <= sec <= 59.
Proof.
  unfold valid_time. intros H.
  repeat (apply andb_true_iff in H as [H ?]).
  repeat match goal with
         | H : (_ <=? _) = true |- _ => apply Z.leb_le in H
         end. lia.
Qed.

(** The wire text of a valid date and time is what [toISOString] prints,
    to the second, for the time they make. *)
Lemma wire_text_date_time y m d h mi sec :
  valid_date y m d = true -> valid_time h mi sec = true ->
  wire_text y m d h mi sec
  = date_time_string (MakeDate (MakeDay y (m - 1) d) (MakeTime h mi sec 0)) ++ "Z".
Proof.
  intros Hd Ht.
  apply valid_date_bounds in Hd as (Hy & Hm & Hd).
  apply valid_time_bounds in Ht as (Hh & Hmi & Hs).
  destruct (fields_of_made_time y (m - 1) d h mi sec Hm Hd Hh Hmi Hs)
    as (E1 & E2 & E3 & E4 & E5 & E6 & _).
  unfold date_time_string. rewrite E1, E2, E3, E4, E5, E6.
  unfold year_string.
  destruct (Z.leb_spec 0 y); [| lia]. destruct (Z.leb_spec y 9999); [| lia].
  cbn [andb]. replace (m - 1 + 1) with m by lia.
  unfold wire_text, date_text. now rewrite !app_assoc_string.
Qed.

Lemma read_iso_date_text y m d :
  valid_date y m d = true ->
  read_iso (date_text y m d)
  = Some {| iso_year := y; iso_month := m; iso_day := d; iso_has_time := false;
            iso_hour := 0; iso_minute := 0; iso_second := 0; iso_ms := 0;
            iso_offset := None |}.
Proof.
  intros Hv. pose proof Hv as Hb.
  apply valid_date_bounds in Hb as (Hy & Hm & Hd).
  pose proof (DaysInMonth_le_31 y (m - 1) Hm) as H31.
  unfold date_text. rewrite <- (app_nil_r_string (pad 2 d)).
  unfold read_iso, read_year.
  rewrite !accept_pad by reflexivity.
  rewrite read_digits_pad_small by (cbn; lia).
  unfold read_month_day.
  repeat (cbn [bind_opt append accept Ascii.eqb Bool.eqb guard];
          rewrite read_digits_pad_small by (cbn; lia)).
  cbn [bind_opt append accept Ascii.eqb Bool.eqb guard].
  unfold fields_in_bounds.
  cbn [iso_year iso_month iso_day iso_hour iso_minute iso_second iso_ms].
  repeat match goal with
         | |- context [?a <=? ?b] =>
             destruct (Z.leb_spec a b); [| lia]
         end.
  reflexivity.
Qed.

End WireText.

(** ** Payloads, completions and traces *)

Lemma settings_condition (v : jsval) :
  truthy v && Array_isArray v && length_gt_0 v = nonempty_sequence v.
Proof. destruct v as [| | b | n | s | [| x l] | o]; cbn; try reflexivity;
  try (destruct b; reflexivity); try (destruct n as [| |m e]; [reflexivity.. | now destruct (m =? 0)]);
  try now destruct (String.eqb s ""). Qed.

Lemma nonempty_sequence_truthy (v : jsval) :
  nonempty_sequence v = true -> truthy v = true.
Proof. destruct v as [| | | | | [| x l] |]; cbn; congruence. Qed.

Lemma normalized_idem p f :
  normalizes p f = true ->
  normalizes p (field_of_nullable (normalized p f)) = true
  /\ normalized p (field_of_nullable (normalized p f)) = normalized p f.
Proof.
  destruct f as [| | s]; cbn [normalizes normalized field_of_nullable]; auto.
  destruct (String.eqb_spec s "") as [| Hs]; [auto |].
  destruct (Date_parse p s) as [tv |] eqn:E; [| discriminate]. intros _.
  cbn [field_of_nullable normalizes normalized].
  destruct (String.eqb_spec (IsoFormat.date_time_string tv ++ "Z") "") as [H0 |];
    [now apply date_time_string_nonempty in H0 |].
  rewrite (Date_parse_date_time p tv (Date_parse_range p _ _ E)).
  now rewrite date_time_string_whole.
Qed.

Lemma api_run_completions p frm out :
  normalizes p (from_date frm) = true -> normalizes p (to_date frm) = true ->
  handler_completion (run (AmazonApiSettings.load_sync p frm) out) = Normal tt
  /\ callback_completions (run (AmazonApiSettings.load_sync p frm) out) = [Normal tt].
Proof.
  intros N1 N2. unfold run. cbn [handler_completion callback_completions].
  rewrite api_issued, N1, N2. cbn [andb map].
  rewrite (api_load_sync_normal _ _ N1 N2). split; [reflexivity |].
  destruct out as [res | err]; cbn; [| reflexivity].
  unfold AmazonApiSettings.on_callback.
  destruct (truthy (res_message res)); reflexivity.
Qed.

Lemma load_sync_throw_traces p frm :
  (normalizes p (from_date frm) = false ->
   trace (AmazonSettings.load_sync p frm) = [NewDate (js_of_field (from_date frm))]
   /\ trace (AmazonApiSettings.load_sync p frm) = [NewDate (js_of_field (from_date frm))])
  /\ (normalizes p (from_date frm) = true -> normalizes p (to_date frm) = false ->
      trace (AmazonSettings.load_sync p frm)
      = (date_events (from_date frm) ++ [NewDate (js_of_field (to_date frm))])%list
      /\ trace (AmazonApiSettings.load_sync p frm)
         = (date_events (from_date frm) ++ [NewDate (js_of_field (to_date frm))])%list).
Proof.
  assert (T : forall f, normalizes p f = false -> date_events f = [NewDate (js_of_field f)]).
  { intros f N. destruct f as [| | s]; try discriminate.
    unfold normalizes in N. unfold date_events. cbn [js_of_field truthy].
    destruct (String.eqb s ""); [discriminate | reflexivity]. }
  split.
  - intros N1. unfold AmazonSettings.load_sync, AmazonApiSettings.load_sync.
    change AmazonApiSettings.formatToISO8601 with AmazonSettings.formatToISO8601.
    rewrite (format_throw p _ N1), (T _ N1). split; reflexivity.
  - intros N1 N2. unfold AmazonSettings.load_sync, AmazonApiSettings.load_sync.
    change AmazonApiSettings.formatToISO8601 with AmazonSettings.formatToISO8601.
    rewrite (format_normal p _ N1), (format_throw p _ N2), (T _ N2).
    split; reflexivity.
Qed.

(** ** The properties *)

(** X1.  [formatToISO8601] throws exactly on a non-empty string the date
    parser rejects, and what it throws is the RangeError of
    [toISOString]; on every other input it returns. *)
Theorem X1_format_throws_iff (p : platform) (f : field_value) :
  (forall e, result (AmazonSettings.formatToISO8601 p f) = Throw e ->
     e = RangeError "Invalid time value"
     /\ exists s, f = FStr s /\ s <> "" /\ Date_parse p s = None)
  /\ (forall s, f = FStr s -> s <> "" -> Date_parse p s = None ->
      AmazonSettings.formatToISO8601 p f
      = ([NewDate (JStr s)], Throw (RangeError "Invalid time value")))
  /\ AmazonApiSettings.formatToISO8601 p f = AmazonSettings.formatToISO8601 p f.
Proof.
  split; [| split; [| reflexivity]].
  - intros e H. destruct (normalizes p f) eqn:N.
    + rewrite (format_normal p f N) in H. discriminate.
    + rewrite (format_throw p f N) in H. injection H as <-.
      split; [reflexivity |].
      destruct f as [| | s]; try discriminate. exists s.
      unfold normalizes in N.
      destruct (String.eqb_spec s "") as [| Hs]; [discriminate |].
      destruct (Date_parse p s); [discriminate | auto].
  - intros s -> Hs Hp. now apply format_unparsed.
Qed.

Lemma X1_format_throws_iff_witness :
  AmazonSettings.formatToISO8601 Engine.utc (FStr "2024-13-45")
  = ([NewDate (JStr "2024-13-45")], Throw (RangeError "Invalid time value")).
Proof.
  apply (proj1 (proj2 (X1_format_throws_iff Engine.utc (FStr "2024-13-45")))).
  - reflexivity.
  - discriminate.
  - vm_compute. reflexivity.
Defined.

(** X2.  Two parseable inputs normalise to the same string exactly when
    their times fall in the same whole second. *)
Theorem X2_same_second (p : platform) (s1 s2 : string) (t1 t2 : Z) :
  s1 <> "" -> s2 <> "" ->
  Date_parse p s1 = Some t1 -> Date_parse p s2 = Some t2 ->
  (result (AmazonSettings.formatToISO8601 p (FStr s1))
   = result (AmazonSettings.formatToISO8601 p (FStr s2))
   <-> t1 / 1000 = t2 / 1000).
Proof.
  intros H1 H2 P1 P2.
  rewrite (format_parsed p s1 t1 H1 P1), (format_parsed p s2 t2 H2 P2).
  cbn [result snd].
  pose proof (Date_parse_date_time p t1 (Date_parse_range p _ _ P1)) as R1.
  pose proof (Date_parse_date_time p t2 (Date_parse_range p _ _ P2)) as R2.
  split.
  - intros [= E]. rewrite E in R1. rewrite R1 in R2. injection R2 as R.
    unfold DateArith.msFromTime, DateArith.msPerSecond in R.
    Z.to_euclidean_division_equations; lia.
  - intros E.
    rewrite <- (date_time_string_whole t1), <- (date_time_string_whole t2).
    replace (t1 - DateArith.msFromTime t1) with (t2 - DateArith.msFromTime t2);
      [reflexivity |].
    unfold DateArith.msFromTime, DateArith.msPerSecond.
    Z.to_euclidean_division_equations; lia.
Qed.

Lemma X2_same_second_witness :
  result (AmazonSettings.formatToISO8601 Engine.utc (FStr "2024-01-15T10:30:00.001Z"))
  = result (AmazonSettings.formatToISO8601 Engine.utc (FStr "2024-01-15T10:30:00.999Z")).
Proof.
  apply (proj2 (X2_same_second Engine.utc "2024-01-15T10:30:00.001Z"
                  "2024-01-15T10:30:00.999Z" 1705314600001 1705314600999
                  ltac:(discriminate) ltac:(discriminate)
                  ltac:(vm_compute; reflexivity) ltac:(vm_compute; reflexivity))).
  reflexivity.
Defined.

(** X3.  On a string of the Date Time String Format that is a date only,
    or that carries a UTC offset, the result is the same on every platform:
    it depends neither on the local time zone nor on the parser's
    fallback. *)
Theorem X3_zone_independent (p q : platform) (s : string) (f : IsoFormat.iso_fields) :
  IsoFormat.read_iso s = Some f ->
  IsoFormat.iso_has_time f = false \/ IsoFormat.iso_offset f <> None ->
  result (AmazonSettings.formatToISO8601 p (FStr s))
  = result (AmazonSettings.formatToISO8601 q (FStr s)).
Proof.
  intros Hf Hz.
  assert (E : Date_parse p s = Date_parse q s).
  { unfold Date_parse. rewrite Hf. f_equal. unfold IsoFormat.time_of_fields.
    destruct (IsoFormat.iso_offset f) as [off |]; [reflexivity |].
    destruct Hz as [-> | Hz]; [reflexivity | congruence]. }
  destruct (String.eqb_spec s "") as [-> | Hs]; [reflexivity |].
  destruct (Date_parse q s) as [tv |] eqn:Q.
  - now rewrite (format_parsed p s tv Hs E), (format_parsed q s tv Hs Q).
  - now rewrite (format_unparsed p s Hs E), (format_unparsed q s Hs Q).
Qed.

Lemma X3_zone_independent_witness :
  result (AmazonSettings.formatToISO8601 Engine.kolkata (FStr "2024-01-15T10:30:00+02:00"))
  = result (AmazonSettings.formatToISO8601 Engine.utc (FStr "2024-01-15T10:30:00+02:00")).
Proof.
  eapply (X3_zone_independent Engine.kolkata Engine.utc "2024-01-15T10:30:00+02:00").
  - vm_compute. reflexivity.
  - right. discriminate.
Defined.

(** X4.  The value of a Date field, [YYYY-MM-DD] for a calendar date with
    a four-digit year, normalises on every platform to the same date at
    midnight UTC: the text followed by [T00:00:00Z]. *)
Theorem X4_date_field (p : platform) (y m d : Z) :
  valid_date y m d = true ->
  AmazonSettings.formatToISO8601 p (FStr (date_text y m d))
  = ([NewDate (JStr (date_text y m d))],
     Normal (Some (date_text y m d ++ "T00:00:00Z"))).
Proof.
  intros Hv.
  assert (Hw : date_text y m d ++ "T00:00:00Z" = wire_text y m d 0 0 0).
  { unfold wire_text. reflexivity. }
  rewrite Hw, (wire_text_date_time y m d 0 0 0 Hv eq_refl).
  apply format_parsed.
  - unfold date_text. discriminate.
  - unfold Date_parse. rewrite (read_iso_date_text y m d Hv).
    unfold IsoFormat.time_of_fields.
    cbn [IsoFormat.iso_year IsoFormat.iso_month IsoFormat.iso_day
         IsoFormat.iso_hour IsoFormat.iso_minute IsoFormat.iso_second
         IsoFormat.iso_ms IsoFormat.iso_offset IsoFormat.iso_has_time].
    unfold DateArith.TimeClip.
    apply valid_date_bounds in Hv as (Hy & Hm & Hd).
    pose proof (made_time_in_range y (m - 1) d 0 0 0 Hy Hm Hd
                  ltac:(lia) ltac:(lia) ltac:(lia)) as R.
    destruct (Z.leb_spec
                (Z.abs (DateArith.MakeDate (DateArith.MakeDay y (m - 1) d)
                          (DateArith.MakeTime 0 0 0 0))) DateArith.maxTime);
      [reflexivity | lia].
Qed.

Lemma X4_date_field_witness :
  AmazonSettings.formatToISO8601 Engine.kolkata (FStr (date_text 2024 2 29))
  = ([NewDate (JStr (date_text 2024 2 29))],
     Normal (Some (date_text 2024 2 29 ++ "T00:00:00Z"))).
Proof. apply (X4_date_field Engine.kolkata 2024 2 29). reflexivity. Defined.

(** X5.  A string already in the wire form [YYYY-MM-DDTHH:mm:ssZ], with a
    calendar date and a time of day, is returned unchanged on every
    platform. *)
Theorem X5_wire_text_fixed (p : platform) (y m d h mi sec : Z) :
  valid_date y m d = true -> valid_time h mi sec = true ->
  AmazonSettings.formatToISO8601 p (FStr (wire_text y m d h mi sec))
  = ([NewDate (JStr (wire_text y m d h mi sec))],
     Normal (Some (wire_text y m d h mi sec))).
Proof.
  intros Hd Ht.
  set (t := DateArith.MakeDate (DateArith.MakeDay y (m - 1) d)
              (DateArith.MakeTime h mi sec 0)).
  pose proof (wire_text_date_time y m d h mi sec Hd Ht) as W. fold t in W.
  apply valid_date_bounds in Hd as (Hy & Hm & Hd).
  apply valid_time_bounds in Ht as (Hh & Hmi & Hs).
  destruct (fields_of_made_time y (m - 1) d h mi sec Hm Hd Hh Hmi Hs)
    as (_ & _ & _ & _ & _ & _ & Ems). fold t in Ems.
  pose proof (made_time_in_range y (m - 1) d h mi sec Hy Hm Hd Hh Hmi Hs) as R.
  fold t in R.
  rewrite W. apply format_parsed.
  - apply date_time_string_nonempty.
  - rewrite (Date_parse_date_time p t R), Ems. f_equal. lia.
Qed.

Lemma X5_wire_text_fixed_witness :
  AmazonSettings.formatToISO8601 Engine.kolkata (FStr (wire_text 2024 1 15 10 30 0))
  = ([NewDate (JStr (wire_text 2024 1 15 10 30 0))],
     Normal (Some (wire_text 2024 1 15 10 30 0))).
Proof.
  apply (X5_wire_text_fixed Engine.kolkata 2024 1 15 10 30 0); reflexivity.
Defined.

(** X6.  Settling a resolved call of the "Amazon Settings" handler clears
    the overlay and renders exactly one notice: the success notice,
    followed by a log of the payload, when [message] is an array with at
    least one element, and the information notice, with nothing logged, on
    every other payload (also [false], [0], the empty string, a non-empty
    string, an object). *)
Theorem X6_settings_resolved (p : platform) (frm : doc) (res : response)
    (o : call_options event) :
  In o (issued (trace (AmazonSettings.load_sync p frm))) ->
  settle o (Resolved res)
  = (if nonempty_sequence (res_message res)
     then [Unfreeze; Msgprint (AmazonSettings.success_notice p);
           ConsoleLog [JStr "Response:"; res_message res]]
     else [Unfreeze; Msgprint (AmazonSettings.information_notice p)],
     Normal tt).
Proof.
  intros Ho. apply settings_issued_inv in Ho as (-> & _ & _).
  cbn [settle AmazonSettings.call_object callback].
  unfold AmazonSettings.on_callback. rewrite settings_condition.
  destruct (nonempty_sequence (res_message res)); reflexivity.
Qed.

Lemma X6_settings_resolved_witness :
  settle (AmazonSettings.call_object Engine.utc None None)
    (Resolved {| res_message := JStr "done" |})
  = ([Unfreeze; Msgprint (AmazonSettings.information_notice Engine.utc)], Normal tt).
Proof.
  apply (X6_settings_resolved Engine.utc unset_doc {| res_message := JStr "done" |}).
  left; reflexivity.
Defined.

(** X7.  Settling a resolved call of the "Amazon API Settings" handler
    renders the success notice exactly when [message] is truthy, so also
    for an empty array; whenever the "Amazon Settings" handler renders its
    success notice for a response, this handler renders its own for the
    same response. *)
Theorem X7_api_resolved (p : platform) (frm : doc) (res : response)
    (oa os : call_options event) :
  In oa (issued (trace (AmazonApiSettings.load_sync p frm))) ->
  In os (issued (trace (AmazonSettings.load_sync p frm))) ->
  (notices (trace (settle oa (Resolved res))) = [AmazonApiSettings.success_notice p]
   <-> truthy (res_message res) = true)
  /\ (notices (trace (settle oa (Resolved res))) = [AmazonApiSettings.error_notice p]
      <-> truthy (res_message res) = false)
  /\ (notices (trace (settle os (Resolved res))) = [AmazonSettings.success_notice p] ->
      notices (trace (settle oa (Resolved res))) = [AmazonApiSettings.success_notice p]).
Proof.
  intros Ha Hs.
  apply api_issued_inv in Ha as (-> & _ & _).
  apply settings_issued_inv in Hs as (-> & _ & _).
  cbn [settle AmazonApiSettings.call_object AmazonSettings.call_object callback].
  unfold AmazonApiSettings.on_callback, AmazonSettings.on_callback.
  rewrite settings_condition.
  destruct (nonempty_sequence (res_message res)) eqn:N.
  - rewrite (nonempty_sequence_truthy _ N). cbn.
    repeat split; try reflexivity; discriminate.
  - destruct (truthy (res_message res)); cbn;
      repeat split; try reflexivity; discriminate.
Qed.

Lemma X7_api_resolved_witness :
  notices (trace (settle (AmazonApiSettings.call_object Engine.utc None None)
                    (Resolved {| res_message := JArr [] |})))
  = [AmazonApiSettings.success_notice Engine.utc].
Proof.
  apply (proj1 (X7_api_resolved Engine.utc unset_doc {| res_message := JArr [] |}
                  (AmazonApiSettings.call_object Engine.utc None None)
                  (AmazonSettings.call_object Engine.utc None None)
                  ltac:(left; reflexivity) ltac:(left; reflexivity))).
  reflexivity.
Defined.

(** X8.  The "Amazon API Settings" handler completes, with its callback,
    exactly when both date fields normalise; the run then renders one
    notice on a resolved call and none on a rejected one.  Otherwise it
    ends in the RangeError of [toISOString], with no call issued and no
    notice rendered. *)
Theorem X8_api_exceptions (p : platform) (frm : doc) (out : rpc_outcome) :
  let r := run (AmazonApiSettings.load_sync p frm) out in
  (normalizes p (from_date frm) && normalizes p (to_date frm) = true ->
   handler_completion r = Normal tt
   /\ callback_completions r = [Normal tt]
   /\ count is_call (events r) = 1%nat
   /\ count is_notice (events r)
      = match out with Resolved _ => 1%nat | Rejected _ => 0%nat end)
  /\ (normalizes p (from_date frm) && normalizes p (to_date frm) = false ->
      handler_completion r = Throw (RangeError "Invalid time value")
      /\ count is_call (events r) = 0%nat
      /\ count is_notice (events r) = 0%nat).
Proof.
  cbv zeta. split; intros N.
  - apply andb_true_iff in N as [N1 N2].
    destruct (api_run_completions p frm out N1 N2) as [-> ->].
    split; [reflexivity |]. split; [reflexivity |].
    rewrite (api_run_events _ _ _ N1 N2). cbv zeta.
    destruct out as [res | err];
      cbn [settle AmazonApiSettings.call_object callback error].
    + unfold AmazonApiSettings.on_callback.
      destruct (truthy (res_message res)); trace_cases frm; split; reflexivity.
    + trace_cases frm; split; reflexivity.
  - destruct (api_run_throw _ _ out N) as (tr & Htr & -> & ->).
    split; [reflexivity |]. split; apply count_new_dates; auto.
Qed.

Lemma X8_api_exceptions_witness :
  let r := run (AmazonApiSettings.load_sync Engine.utc bad_doc) (Rejected JNull) in
  handler_completion r = Throw (RangeError "Invalid time value")
  /\ count is_call (events r) = 0%nat
  /\ count is_notice (events r) = 0%nat.
Proof.
  apply (proj2 (X8_api_exceptions Engine.utc bad_doc (Rejected JNull))).
  vm_compute. reflexivity.
Defined.

(** X9.  Both handlers stop at the first date that does not normalise.
    When [from_date] is rejected, the only thing done is the construction
    of its [Date]: [to_date] is not looked at, nothing is logged, no
    overlay shown, no call issued.  When only [to_date] is rejected, the
    two dates have been constructed (the first only if it is not empty) and
    nothing else has happened. *)
Theorem X9_stops_at_first_bad_date (p : platform) (frm : doc) (out : rpc_outcome) :
  (normalizes p (from_date frm) = false ->
   events (run (AmazonSettings.load_sync p frm) out)
   = [NewDate (js_of_field (from_date frm))]
   /\ events (run (AmazonApiSettings.load_sync p frm) out)
      = [NewDate (js_of_field (from_date frm))])
  /\ (normalizes p (from_date frm) = true -> normalizes p (to_date frm) = false ->
      events (run (AmazonSettings.load_sync p frm) out)
      = (date_events (from_date frm) ++ [NewDate (js_of_field (to_date frm))])%list
      /\ events (run (AmazonApiSettings.load_sync p frm) out)
         = (date_events (from_date frm) ++ [NewDate (js_of_field (to_date frm))])%list).
Proof.
  destruct (load_sync_throw_traces p frm) as [T1 T2].
  split.
  - intros N1. destruct (T1 N1) as [E1 E2].
    unfold run. cbn [events]. rewrite settings_issued, api_issued, N1.
    cbn [andb map List.concat]. rewrite !app_nil_r. auto.
  - intros N1 N2. destruct (T2 N1 N2) as [E1 E2].
    unfold run. cbn [events]. rewrite settings_issued, api_issued, N1, N2.
    cbn [andb map List.concat]. rewrite !app_nil_r. auto.
Qed.

Lemma X9_stops_at_first_bad_date_witness :
  events (run (AmazonSettings.load_sync Engine.utc
                 {| from_date := FStr "soon"; to_date := FStr "2024-01-15" |})
            (Resolved {| res_message := JNull |}))
  = [NewDate (JStr "soon")].
Proof.
  apply (proj1 (X9_stops_at_first_bad_date Engine.utc
                  {| from_date := FStr "soon"; to_date := FStr "2024-01-15" |}
                  (Resolved {| res_message := JNull |}))).
  vm_compute. reflexivity.
Defined.

(** X10.  For every form state the two handlers issue the same remote
    calls: the same method with the same arguments. *)
Theorem X10_same_request (p : platform) (frm : doc) :
  map (fun o => (method o, args o)) (issued (trace (AmazonSettings.load_sync p frm)))
  = map (fun o => (method o, args o)) (issued (trace (AmazonApiSettings.load_sync p frm))).
Proof.
  rewrite settings_issued, api_issued.
  destruct (normalizes p (from_date frm) && normalizes p (to_date frm)); reflexivity.
Qed.

(** X11.  Submitting the normalised values again changes nothing: a form
    whose two fields hold what a first invocation sent (a [null] as an
    unset field) issues one call with the same arguments. *)
Theorem X11_resubmission (p : platform) (frm : doc) (o : call_options event) :
  In o (issued (trace (AmazonSettings.load_sync p frm))) ->
  exists o',
    issued (trace (AmazonSettings.load_sync p
                     {| from_date := field_of_nullable (normalized p (from_date frm));
                        to_date := field_of_nullable (normalized p (to_date frm)) |}))
    = [o']
    /\ args o' = args o /\ method o' = method o.
Proof.
  intros Ho. apply settings_issued_inv in Ho as (-> & N1 & N2).
  destruct (normalized_idem p _ N1) as [M1 V1].
  destruct (normalized_idem p _ N2) as [M2 V2].
  eexists. rewrite settings_issued. cbn [from_date to_date].
  rewrite M1, M2, V1, V2. cbn [andb]. repeat split; reflexivity.
Qed.

Lemma X11_resubmission_witness :
  exists o',
    issued (trace (AmazonSettings.load_sync Engine.kolkata
                     {| from_date := field_of_nullable
                                       (normalized Engine.kolkata (from_date scenario_doc));
                        to_date := field_of_nullable
                                     (normalized Engine.kolkata (to_date scenario_doc)) |}))
    = [o']
    /\ args o' = args (AmazonSettings.call_object Engine.kolkata
                         (Some "2024-01-15T05:00:00Z") None)
    /\ method o' = method (AmazonSettings.call_object Engine.kolkata
                             (Some "2024-01-15T05:00:00Z") None).
Proof.
  apply (X11_resubmission Engine.kolkata scenario_doc
           (AmazonSettings.call_object Engine.kolkata
              (Some "2024-01-15T05:00:00Z") None)).
  vm_compute. left. reflexivity.
Defined.

(** X12.  Normalisation moves a time back to the start of its second,
    never forward, and keeps two times in order: read back, the results
    for an earlier and a later input are times in the same order, each
    less than a second before the original. *)
Theorem X12_floor_keeps_order (p : platform) (s1 s2 : string) (t1 t2 : Z) :
  s1 <> "" -> s2 <> "" ->
  Date_parse p s1 = Some t1 -> Date_parse p s2 = Some t2 ->
  exists o1 o2 u1 u2,
    result (AmazonSettings.formatToISO8601 p (FStr s1)) = Normal (Some o1)
    /\ result (AmazonSettings.formatToISO8601 p (FStr s2)) = Normal (Some o2)
    /\ Date_parse p o1 = Some u1 /\ Date_parse p o2 = Some u2
    /\ t1 - 999 <= u1 <= t1 /\ t2 - 999 <= u2 <= t2
    /\ (t1 <= t2 -> u1 <= u2).
Proof.
  intros H1 H2 P1 P2.
  exists (IsoFormat.date_time_string t1 ++ "Z"), (IsoFormat.date_time_string t2 ++ "Z"),
    (t1 - DateArith.msFromTime t1), (t2 - DateArith.msFromTime t2).
  rewrite (format_parsed p s1 t1 H1 P1), (format_parsed p s2 t2 H2 P2).
  rewrite (Date_parse_date_time p t1 (Date_parse_range p _ _ P1)).
  rewrite (Date_parse_date_time p t2 (Date_parse_range p _ _ P2)).
  repeat (split; [reflexivity |]).
  unfold DateArith.msFromTime, DateArith.msPerSecond.
  repeat split; Z.to_euclidean_division_equations; lia.
Qed.

Lemma X12_floor_keeps_order_witness :
  exists o1 o2 u1 u2,
    result (AmazonSettings.formatToISO8601 Engine.utc (FStr "2024-01-15T10:30:00.900Z"))
    = Normal (Some o1)
    /\ result (AmazonSettings.formatToISO8601 Engine.utc (FStr "2024-01-15T10:30:01.100Z"))
       = Normal (Some o2)
    /\ Date_parse Engine.utc o1 = Some u1 /\ Date_parse Engine.utc o2 = Some u2
    /\ 1705314600900 - 999 <= u1 <= 1705314600900
    /\ 1705314601100 - 999 <= u2 <= 1705314601100
    /\ (1705314600900 <= 1705314601100 -> u1 <= u2).
Proof.
  apply (X12_floor_keeps_order Engine.utc "2024-01-15T10:30:00.900Z"
           "2024-01-15T10:30:01.100Z" 1705314600900 1705314601100);
    [discriminate | discriminate | vm_compute; reflexivity | vm_compute; reflexivity].
Defined.

(** X13.  When the UTC year of the parsed time lies outside 0..9999 the
    result carries a sign and six year digits: it has the form
    [+YYYYYY-MM-DDTHH:mm:ssZ] after the year 9999 and [-YYYYYY-...] before
    the year 0, and does not match [YYYY-MM-DDTHH:mm:ssZ]. *)
Theorem X13_expanded_year (p : platform) (s : string) (tv : Z) :
  s <> "" -> Date_parse p s = Some tv ->
  DateArith.YearFromTime tv < 0 \/ 9999 < DateArith.YearFromTime tv ->
  exists out,
    result (AmazonSettings.formatToISO8601 p (FStr s)) = Normal (Some out)
    /\ matches (expanded_seconds_pattern
                  (if 0 <=? DateArith.YearFromTime tv then "+"%char else "-"%char)) out
       = true
    /\ matches iso_seconds_pattern out = false.
Proof.
  intros Hs Hp Hy. eexists. rewrite (format_parsed p s tv Hs Hp).
  split; [reflexivity |].
  unfold IsoFormat.date_time_string, IsoFormat.year_string.
  assert (E : (0 <=? DateArith.YearFromTime tv) && (DateArith.YearFromTime tv <=? 9999)
              = false).
  { destruct (Z.leb_spec 0 (DateArith.YearFromTime tv)),
      (Z.leb_spec (DateArith.YearFromTime tv) 9999); cbn; try reflexivity; lia. }
  rewrite E. rewrite !app_assoc_string.
  set (sg := if 0 <=? DateArith.YearFromTime tv then _ else _).
  split.
  - change (expanded_seconds_pattern sg)
      with (C sg
            :: repeat D 6 ++ C "-" :: repeat D 2 ++ C "-" :: repeat D 2 ++ C "T"
            :: repeat D 2 ++ C ":" :: repeat D 2 ++ C ":" :: repeat D 2
            ++ [C "Z"])%list%char.
    cbn [append matches]. rewrite Ascii.eqb_refl. cbn [andb].
    repeat (rewrite matches_pad; cbn [append matches Ascii.eqb Bool.eqb andb]).
    reflexivity.
  - cbn [append]. subst sg.
    destruct (0 <=? DateArith.YearFromTime tv); reflexivity.
Qed.

Lemma X13_expanded_year_witness :
  exists out,
    result (AmazonSettings.formatToISO8601 Engine.utc (FStr "-000001-12-31T23:59:59Z"))
    = Normal (Some out)
    /\ matches (expanded_seconds_pattern
                  (if 0 <=? DateArith.YearFromTime (-62167219201000)
                   then "+"%char else "-"%char)) out = true
    /\ matches iso_seconds_pattern out = false.
Proof.
  apply (X13_expanded_year Engine.utc "-000001-12-31T23:59:59Z" (-62167219201000)).
  - discriminate.
  - vm_compute. reflexivity.
  - left. vm_compute. reflexivity.
Defined.
